(** * news-fetcher.js: the AI news aggregation, caching and paging pipeline

    A shallow embedding of [src/js/news-fetcher.js] (the version with the
    article modal) and the properties of its specification.

    Conventions of the embedding.
    - A JavaScript string is a [string]: a sequence of code units, here
      restricted to U+0000..U+00FF (one [ascii] per code unit).
    - A JavaScript number that holds a time value or a count is a [Z] or a
      [nat]; [NaN] is [None] of an [option].
    - A property that is [undefined], [null] or missing is [None]; the
      truthiness test of [x || d] and [x ? a : b] is [truthy].
    - Built-ins of the browser whose algorithms are not part of the module
      ([Date.parse], [toISOString], [JSON.parse], [JSON.stringify], the host
      part of the URL parser, the HTML parser behind [stripHTML]) are the
      fields of a class [Browser]; [Module Engine] gives a concrete instance
      to run examples.
    - The elements that the module looks up in the document exist, and
      [localStorage] neither refuses access nor runs out of quota.
    - The one [await] of [fetchAINews] is a single step: no other handler
      runs between the requests and their results. *)

From Stdlib Require Import ZArith Ascii String Decimal DecimalString DecimalZ.
From stdpp Require Import base decidable option list sorting gmap strings.

Local Open Scope Z_scope.

(* ================================================================== *)
(** * JavaScript strings *)
(* ================================================================== *)

Module JS.

(** [x || d] on a string-valued property. The empty string is falsy. *)
Definition truthy (o : option string) : bool :=
  match o with
  | Some s => negb (String.eqb s "")
  | None => false
  end.

Definition or_else (o : option string) (d : string) : string :=
  match o with
  | Some s => if String.eqb s "" then d else s
  | None => d
  end.

(** [String.prototype.toLowerCase] on the code units U+0000..U+00FF:
    A..Z and the Latin-1 capitals U+00C0..U+00DE (U+00D7, the multiplication
    sign, apart) move up by 32. *)
Definition lower_code (n : N) : N :=
  if ((65 <=? n) && (n <=? 90))%N then (n + 32)%N
  else if ((192 <=? n) && (n <=? 222) && negb (n =? 215))%N then (n + 32)%N
  else n.

Definition lower_char (c : ascii) : ascii := ascii_of_N (lower_code (N_of_ascii c)).

Fixpoint toLowerCase (s : string) : string :=
  match s with
  | EmptyString => EmptyString
  | String c s' => String (lower_char c) (toLowerCase s')
  end.

(** [s.startsWith(p)]. *)
Fixpoint startsWith (s p : string) {struct p} : bool :=
  match p, s with
  | EmptyString, _ => true
  | String _ _, EmptyString => false
  | String a p', String b s' => if Ascii.eqb a b then startsWith s' p' else false
  end.

(** [s.includes(k)]: [k] occurs in [s] at some position. *)
Fixpoint includes (s k : string) : bool :=
  startsWith s k ||
  match s with
  | EmptyString => false
  | String _ s' => includes s' k
  end.

(** [s.substring(0, n)] for a count [n]: the first [n] code units, the whole
    string when it is shorter. *)
Fixpoint substring0 (n : nat) (s : string) : string :=
  match n, s with
  | O, _ => EmptyString
  | S _, EmptyString => EmptyString
  | S n', String c s' => String c (substring0 n' s')
  end.

(** [StrWhiteSpaceChar] among U+0000..U+00FF. *)
Definition is_whitespace (c : ascii) : bool :=
  existsb (N.eqb (N_of_ascii c)) [9; 10; 11; 12; 13; 32; 160]%N.

Fixpoint skip_whitespace (s : string) : string :=
  match s with
  | String c s' => if is_whitespace c then skip_whitespace s' else s
  | EmptyString => EmptyString
  end.

(** The value of a digit in a radix up to 36. *)
Definition digit_value (c : ascii) : option Z :=
  let n := Z.of_N (N_of_ascii c) in
  if (48 <=? n) && (n <=? 57) then Some (n - 48)
  else if (97 <=? n) && (n <=? 122) then Some (n - 87)
  else if (65 <=? n) && (n <=? 90) then Some (n - 55)
  else None.

(** The longest run of digits of the radix at the head of [s], as a number;
    [acc] is the value read so far, [None] before the first digit. *)
Fixpoint leading_digits (radix : Z) (acc : option Z) (s : string) : option Z :=
  match s with
  | EmptyString => acc
  | String c s' =>
      match digit_value c with
      | Some d =>
          if d <? radix
          then leading_digits radix (Some (from_option id 0 acc * radix + d)) s'
          else acc
      | None => acc
      end
  end.

(** [parseInt(s)] with no radix given; [None] is [NaN]. *)
Definition parseInt (s : string) : option Z :=
  let s1 := skip_whitespace s in
  let '(sign, s2) :=
    match s1 with
    | String "-" r => (-1, r)
    | String "+" r => (1, r)
    | _ => (1, s1)
    end in
  let '(radix, s3) :=
    match s2 with
    | String "0" (String "x" r) => (16, r)
    | String "0" (String "X" r) => (16, r)
    | _ => (10, s2)
    end in
  Z.mul sign <$> leading_digits radix None s3.

(** [n.toString()] of an integer. *)
Definition toString (n : Z) : string :=
  DecimalString.NilZero.string_of_int (Z.to_int n).

End JS.

(* ================================================================== *)
(** * Configuration constants *)
(* ================================================================== *)

Definition CACHE_DURATION_MS : Z := 3600000.
Definition DESCRIPTION_MAX_LENGTH : nat := 150.
Definition NEWS_PER_PAGE : nat := 9.

Definition RSS_FEEDS : list string :=
  [ "https://techcrunch.com/tag/artificial-intelligence/feed/";
    "https://venturebeat.com/category/ai/feed/";
    "https://www.theverge.com/rss/ai-artificial-intelligence/index.xml" ].

(** The one fallback URL of the module: the default article image, the
    [error] handler of the images and the value [sanitizeURL] falls back to. *)
Definition FALLBACK_URL : string :=
  "https://images.unsplash.com/photo-1677442136019-21780ecad995?w=600&h=400&fit=crop".

(* ================================================================== *)
(** * categorizeArticle *)
(* ================================================================== *)

Definition categorizeArticle (title description : string) : string :=
  let content := JS.toLowerCase (title +:+ " " +:+ description) in
  if JS.includes content "gpt" || JS.includes content "llm"
     || JS.includes content "language model"
     || JS.includes content "chatbot" || JS.includes content "chatgpt"
  then "llm"
  else if JS.includes content "computer vision"
          || JS.includes content "image recognition"
          || JS.includes content "opencv" || JS.includes content "visual"
  then "vision"
  else if JS.includes content "ethics" || JS.includes content "bias"
          || JS.includes content "responsible" || JS.includes content "fairness"
  then "ethics"
  else if JS.includes content "machine learning"
          || JS.includes content "neural network"
          || JS.includes content "deep learning" || JS.includes content "model"
  then "ml"
  else "ml".

(** ** The categorization as the specification words it

    Fixed keyword sets in precedence order; a case-insensitive scan of a text;
    the first set with a keyword in the text wins; [ml] when none has. *)
Module CategorySpec.

Definition LLM_KEYWORDS : list string :=
  ["gpt"; "llm"; "language model"; "chatbot"; "chatgpt"].
Definition VISION_KEYWORDS : list string :=
  ["computer vision"; "image recognition"; "opencv"; "visual"].
Definition ETHICS_KEYWORDS : list string :=
  ["ethics"; "bias"; "responsible"; "fairness"].
Definition ML_KEYWORDS : list string :=
  ["machine learning"; "neural network"; "deep learning"; "model"].

Definition precedence : list (string * list string) :=
  [ ("llm", LLM_KEYWORDS); ("vision", VISION_KEYWORDS);
    ("ethics", ETHICS_KEYWORDS); ("ml", ML_KEYWORDS) ].

(** [k] occurs in [text], letter case ignored. *)
Definition contains_ci (text k : string) : bool :=
  JS.includes (JS.toLowerCase text) (JS.toLowerCase k).

Definition mentions (text : string) (keywords : list string) : bool :=
  existsb (contains_ci text) keywords.

Fixpoint first_match (text : string) (sets : list (string * list string)) : string :=
  match sets with
  | [] => "ml"
  | (category, keywords) :: rest =>
      if mentions text keywords then category else first_match text rest
  end.

Definition scan (text : string) : string := first_match text precedence.

(** The scan over title and description written one after the other. *)
Definition of_concatenation (title description : string) : string :=
  scan (title +:+ description).

(** The scan over title, one space, description. *)
Definition of_spaced (title description : string) : string :=
  scan (title +:+ " " +:+ description).

End CategorySpec.

(* ------------------------------------------------------------------ *)
(** ** Lemmas on strings *)

Lemma string_app_cons c (s t : string) : String c s +:+ t = String c (s +:+ t).
Proof. reflexivity. Qed.

Lemma string_app_nil_l (t : string) : "" +:+ t = t.
Proof. reflexivity. Qed.

Lemma toLowerCase_app s t :
  JS.toLowerCase (s +:+ t) = JS.toLowerCase s +:+ JS.toLowerCase t.
Proof.
  induction s as [|c s IH]; [done|].
  rewrite string_app_cons. cbn [JS.toLowerCase].
  by rewrite IH, string_app_cons.
Qed.

Lemma startsWith_app_r s t k : JS.startsWith s k = true → JS.startsWith (s +:+ t) k = true.
Proof.
  revert s. induction k as [|a k IH]; intros [|b s]; try done.
  rewrite string_app_cons. cbn [JS.startsWith].
  destruct (Ascii.eqb a b); [apply IH | done].
Qed.

Lemma includes_nil_r s : JS.includes s "" = true.
Proof. by destruct s. Qed.

Lemma includes_cons c s k : JS.includes s k = true → JS.includes (String c s) k = true.
Proof. intros H. cbn [JS.includes]. rewrite H. apply orb_true_r. Qed.

Lemma includes_app_r s t k : JS.includes s k = true → JS.includes (s +:+ t) k = true.
Proof.
  induction s as [|c s IH]; intros H.
  - destruct k as [|a k]; [apply includes_nil_r | done].
  - cbn [JS.includes] in H. apply orb_true_iff in H as [H|H].
    + apply (startsWith_app_r _ t) in H.
      rewrite string_app_cons in *. cbn [JS.includes]. by rewrite H.
    + rewrite string_app_cons. apply includes_cons. auto.
Qed.

Lemma includes_app_l s t k : JS.includes t k = true → JS.includes (s +:+ t) k = true.
Proof.
  intros H. induction s as [|c s IH]; [done|].
  rewrite string_app_cons. by apply includes_cons.
Qed.

(* ------------------------------------------------------------------ *)
(** ** Properties of the categorization *)

Lemma keywords_lowercase :
  Forall (λ k, JS.toLowerCase k = k)
    (concat (map snd CategorySpec.precedence)).
Proof. repeat constructor. Qed.

(** An LLM keyword anywhere in the scanned content decides for [llm]. *)
Lemma llm_keyword_wins title description k :
  k ∈ CategorySpec.LLM_KEYWORDS →
  JS.includes (JS.toLowerCase (title +:+ " " +:+ description)) k = true →
  categorizeArticle title description = "llm".
Proof.
  intros Hk Hin. unfold categorizeArticle.
  set (content := JS.toLowerCase _) in *.
  unfold CategorySpec.LLM_KEYWORDS in Hk.
  repeat (apply elem_of_cons in Hk as [->|Hk]);
    [rewrite Hin, ?orb_true_r; reflexivity .. | by apply elem_of_nil in Hk].
Qed.

Lemma contains_ci_title title description k :
  CategorySpec.contains_ci title k = true →
  JS.includes (JS.toLowerCase (title +:+ " " +:+ description)) (JS.toLowerCase k) = true.
Proof.
  unfold CategorySpec.contains_ci. intros H.
  rewrite toLowerCase_app. by apply includes_app_r.
Qed.

Lemma contains_ci_description title description k :
  CategorySpec.contains_ci description k = true →
  JS.includes (JS.toLowerCase (title +:+ " " +:+ description)) (JS.toLowerCase k) = true.
Proof.
  unfold CategorySpec.contains_ci. intros H.
  rewrite !toLowerCase_app. by do 2 apply includes_app_l.
Qed.

(** Whether an item (its title or its description) contains a keyword. *)
Definition item_contains (title description k : string) : bool :=
  CategorySpec.contains_ci title k || CategorySpec.contains_ci description k.

Lemma categorizeArticle_range title description :
  categorizeArticle title description ∈ ["llm"; "ml"; "vision"; "ethics"].
Proof.
  unfold categorizeArticle.
  repeat match goal with |- context [if ?b then _ else _] => destruct b end;
    set_solver.
Qed.

(** C5, as the claim words it: the scan runs over the title and the
    description written one after the other. The source puts a space between
    them. With the title [A new language] and the description [model for
    translation] the source finds the LLM keyword [language model] across the
    space and answers [llm]; the concatenation [A new languagemodel for
    translation] has no LLM keyword, only the ML keyword [model]. The other
    way round, the title [chatg] and the description [pt] concatenate to
    [chatgpt], but the source answers [ml]. *)
Lemma categorizeArticle_not_plain_concatenation :
  ¬ (∀ title description,
       categorizeArticle title description
       = CategorySpec.of_concatenation title description).
Proof.
  intros H.
  assert (categorizeArticle "chatg" "pt" = "ml"
          ∧ CategorySpec.of_concatenation "chatg" "pt" = "llm") as _
    by (split; reflexivity).
  specialize (H "A new language" "model for translation").
  vm_compute in H. discriminate H.
Qed.

(** C5 (amended): for every title and description, [categorizeArticle] is
    the case-insensitive scan of title, one space, description against the
    four keyword sets in the order LLM, vision, ethics, generic ML, the first
    set with a match winning and [ml] the default; and an item whose title or
    description contains an LLM keyword and a vision keyword is [llm]. *)
Theorem categorizeArticle_scan_spaced title description :
  categorizeArticle title description = CategorySpec.of_spaced title description
  ∧ (∀ k v,
       k ∈ CategorySpec.LLM_KEYWORDS → v ∈ CategorySpec.VISION_KEYWORDS →
       item_contains title description k = true →
       item_contains title description v = true →
       categorizeArticle title description = "llm").
Proof.
  split.
  - unfold categorizeArticle, CategorySpec.of_spaced, CategorySpec.scan.
    set (content := JS.toLowerCase _).
    cbn [CategorySpec.precedence CategorySpec.first_match CategorySpec.mentions
         CategorySpec.LLM_KEYWORDS CategorySpec.VISION_KEYWORDS
         CategorySpec.ETHICS_KEYWORDS CategorySpec.ML_KEYWORDS existsb].
    unfold CategorySpec.contains_ci. fold content.
    pose proof keywords_lowercase as Hlow.
    cbn [CategorySpec.precedence map snd concat CategorySpec.LLM_KEYWORDS
         CategorySpec.VISION_KEYWORDS CategorySpec.ETHICS_KEYWORDS
         CategorySpec.ML_KEYWORDS app] in Hlow.
    repeat match type of Hlow with
           | Forall _ (_ :: _) =>
               let E := fresh "E" in
               apply Forall_cons in Hlow as [E Hlow]; rewrite E; clear E
           end.
    by rewrite <- !orb_assoc, !orb_false_r.
  - intros k v Hk Hv Hck _.
    assert (JS.toLowerCase k = k) as Hlow.
    { pose proof Hk as Hk'. unfold CategorySpec.LLM_KEYWORDS in Hk'.
      repeat (apply elem_of_cons in Hk' as [->|Hk']); try reflexivity.
      by apply elem_of_nil in Hk'. }
    apply (llm_keyword_wins _ _ k Hk). rewrite <- Hlow.
    apply orb_true_iff in Hck as [H|H];
      [by apply contains_ci_title | by apply contains_ci_description].
Qed.

Lemma categorizeArticle_scan_spaced_witness :
  categorizeArticle "New GPT model released" "OpenAI ships visual tools" = "llm".
Proof.
  apply (categorizeArticle_scan_spaced
           "New GPT model released" "OpenAI ships visual tools")
    with (k := "gpt") (v := "visual"); [set_solver | set_solver | reflexivity ..].
Defined.

(* ================================================================== *)
(** * Data model *)
(* ================================================================== *)

(** An item of a feed as the conversion service delivers it. Every property
    is a string or is missing; [item_enclosure_link] is [item.enclosure?.link]. *)
Record RawItem := {
  item_title : option string;
  item_description : option string;
  item_link : option string;
  item_pubDate : option string;
  item_author : option string;
  item_thumbnail : option string;
  item_enclosure_link : option string
}.

(** The object pushed on [allNews]. *)
Record Article := {
  title : string;
  description : string;
  link : string;
  pubDate : string;
  source : string;
  image : string;
  category : string
}.

(** What one request of [fetchAINews] settles to, before its [.catch]. *)
Inductive FeedResult :=
  | Rejected                   (* [fetch] or [res.json()] rejected *)
  | NullBody                   (* the body is the JSON value [null] *)
  | Body (status : string) (items : option (list RawItem)).
                               (* an object; [items] missing is [None] *)

(** What [JSON.parse] makes of a stored string. *)
Inductive JSONResult :=
  | JSON_throws                         (* a SyntaxError *)
  | JSON_not_array                      (* a value without [slice] and [filter] *)
  | JSON_articles (l : list Article).   (* an array of article objects *)

(** The built-ins of the browser that the module calls and whose algorithms
    are outside it. *)
Class Browser := {
  (** the time value of [new Date(s)]; [None] is an invalid date *)
  Date_parse : string → option Z;
  (** [new Date(t).toISOString()] *)
  Date_toISOString : Z → string;
  JSON_parse : string → JSONResult;
  JSON_stringify : list Article → string;
  (** [textContent] of an element whose [innerHTML] was set to the string *)
  html_textContent : string → string;
  (** the URL parser after the scheme: given the scheme and the rest of the
      input it fails ([None]) or yields the [hostname] *)
  URL_after_scheme : string → string → option string
}.

(** The world of one run: the readings of [new Date()], in the order the
    embedded statements take them, and what each request settles to. *)
Class World := {
  clock : nat → Z;
  response : string → FeedResult
}.

(* ================================================================== *)
(** * URLs *)
(* ================================================================== *)

Module URL.

Record t := { protocol : string; hostname : string }.

Definition code (c : ascii) : N := N_of_ascii c.

Definition is_alpha (c : ascii) : bool :=
  let n := code c in
  (((65 <=? n) && (n <=? 90)) || ((97 <=? n) && (n <=? 122)))%N.

Definition is_digit (c : ascii) : bool :=
  let n := code c in ((48 <=? n) && (n <=? 57))%N.

(** ASCII alphanumeric, [+], [-] or [.]. *)
Definition is_scheme_char (c : ascii) : bool :=
  is_alpha c || is_digit c
  || (code c =? 43)%N || (code c =? 45)%N || (code c =? 46)%N.

Definition is_c0_or_space (c : ascii) : bool := (code c <=? 32)%N.
Definition is_tab_or_newline (c : ascii) : bool :=
  ((code c =? 9) || (code c =? 10) || (code c =? 13))%N.

Fixpoint drop_leading (s : string) : string :=
  match s with
  | String c s' => if is_c0_or_space c then drop_leading s' else s
  | EmptyString => EmptyString
  end.

Definition trim (s : string) : string :=
  String.rev (drop_leading (String.rev (drop_leading s))).

Fixpoint remove_tab_newline (s : string) : string :=
  match s with
  | EmptyString => EmptyString
  | String c s' =>
      if is_tab_or_newline c then remove_tab_newline s'
      else String c (remove_tab_newline s')
  end.

(** The scheme state of the parser: the rest of the scheme up to the colon,
    lower-cased, and what follows the colon. Anything else before a colon is
    the no-scheme state, a failure when there is no base URL. *)
Fixpoint scheme_state (s : string) : option (string * string) :=
  match s with
  | EmptyString => None
  | String c s' =>
      if (code c =? 58)%N then Some (EmptyString, s')
      else if is_scheme_char c then
        match scheme_state s' with
        | Some (buffer, rest) => Some (String (JS.lower_char c) buffer, rest)
        | None => None
        end
      else None
  end.

(** The scheme start state: a scheme begins with an ASCII letter. *)
Definition scheme_start_state (s : string) : option (string * string) :=
  match s with
  | EmptyString => None
  | String c s' =>
      if is_alpha c then
        match scheme_state s' with
        | Some (buffer, rest) => Some (String (JS.lower_char c) buffer, rest)
        | None => None
        end
      else None
  end.

(** [new URL(url)] without a base; [None] when it throws a TypeError. *)
Definition new {browser : Browser} (url : string) : option t :=
  match scheme_start_state (remove_tab_newline (trim url)) with
  | None => None
  | Some (scheme, rest) =>
      match URL_after_scheme scheme rest with
      | None => None
      | Some host => Some {| protocol := scheme +:+ ":"; hostname := host |}
      end
  end.

Definition hex_digit (n : N) : ascii :=
  ascii_of_N (if (n <? 10)%N then 48 + n else 55 + n)%N.

Definition percent (byte : N) : string :=
  String "%" (String (hex_digit (byte / 16)) (String (hex_digit (byte mod 16)) "")).

(** A-Z a-z 0-9 - _ . ! ~ * ' ( ) *)
Definition is_unreserved (c : ascii) : bool :=
  is_alpha c || is_digit c
  || existsb (λ n, (code c =? n)%N) [45; 95; 46; 33; 126; 42; 39; 40; 41]%N.

(** [encodeURIComponent]: every code unit but the unreserved ones becomes the
    percent-encoded bytes of its UTF-8 form (two bytes from U+0080 on). *)
Fixpoint encodeURIComponent (s : string) : string :=
  match s with
  | EmptyString => EmptyString
  | String c s' =>
      (if is_unreserved c then String c ""
       else if (code c <? 128)%N then percent (code c)
       else percent (192 + code c / 64) +:+ percent (128 + code c mod 64))
      +:+ encodeURIComponent s'
  end.

End URL.

(* ================================================================== *)
(** * sanitizeURL and getHostname *)
(* ================================================================== *)

Section Sanitize.
Context {browser : Browser}.

Definition sanitizeURL (url : string) : string :=
  match URL.new url with
  | Some parsed =>
      if String.eqb (URL.protocol parsed) "http:"
         || String.eqb (URL.protocol parsed) "https:"
      then url
      else FALLBACK_URL
  | None => FALLBACK_URL
  end.

Definition getHostname (url : string) : string :=
  match URL.new url with
  | Some parsed => URL.hostname parsed
  | None => "Unknown Source"
  end.

(** The string parses as a URL and its scheme is http or https. *)
Definition is_http_url (url : string) : Prop :=
  ∃ parsed, URL.new url = Some parsed
            ∧ (URL.protocol parsed = "http:" ∨ URL.protocol parsed = "https:").

End Sanitize.

Example parseInt_examples :
  JS.parseInt "1700000000000" = Some 1700000000000
  ∧ JS.parseInt "  42abc" = Some 42
  ∧ JS.parseInt "0x1F" = Some 31
  ∧ JS.parseInt "-7" = Some (-7)
  ∧ JS.parseInt "abc" = None
  ∧ JS.parseInt "" = None
  ∧ JS.toString 1700000000000 = "1700000000000".
Proof. repeat split. Qed.

(* ================================================================== *)
(** * Program state *)
(* ================================================================== *)

(** A card of the grid: the [src] of its image and the article its click
    handler opens. The escaped texts of the card are not embedded. *)
Record Card := {
  card_image_src : string;
  card_article : Article
}.

(** The content of the article modal. The meta line (date, source and
    category label) and the preview paragraph are not embedded. *)
Record Modal := {
  modalTitle : string;
  modalImage_src : string;
  modalImage_alt : string;
  modalLink_href : string
}.

Record State := {
  (** the variables of the module *)
  allNews : list Article;
  displayedNews : list Article;
  currentFilter : string;
  currentPage : nat;
  (** browser storage *)
  localStorage : gmap string string;
  (** the document: the value of the search box ([None] without the
      element), the [hidden] class of four elements, the grid, the modal *)
  searchInput : option string;
  loadingState_hidden : bool;
  errorState_hidden : bool;
  newsGrid_hidden : bool;
  loadMoreContainer_hidden : bool;
  newsGrid : list Card;
  articleModal : option Modal;
  articleModal_shown : bool;
  (** the requests sent so far, and how often the clock was read *)
  requests : list string;
  clock_reads : nat
}.

Definition set_allNews v st :=
  {| allNews := v; displayedNews := displayedNews st;
     currentFilter := currentFilter st; currentPage := currentPage st;
     localStorage := localStorage st; searchInput := searchInput st;
     loadingState_hidden := loadingState_hidden st;
     errorState_hidden := errorState_hidden st;
     newsGrid_hidden := newsGrid_hidden st;
     loadMoreContainer_hidden := loadMoreContainer_hidden st;
     newsGrid := newsGrid st; articleModal := articleModal st;
     articleModal_shown := articleModal_shown st;
     requests := requests st; clock_reads := clock_reads st |}.

Definition set_displayedNews v st :=
  {| allNews := allNews st; displayedNews := v;
     currentFilter := currentFilter st; currentPage := currentPage st;
     localStorage := localStorage st; searchInput := searchInput st;
     loadingState_hidden := loadingState_hidden st;
     errorState_hidden := errorState_hidden st;
     newsGrid_hidden := newsGrid_hidden st;
     loadMoreContainer_hidden := loadMoreContainer_hidden st;
     newsGrid := newsGrid st; articleModal := articleModal st;
     articleModal_shown := articleModal_shown st;
     requests := requests st; clock_reads := clock_reads st |}.

Definition set_currentFilter v st :=
  {| allNews := allNews st; displayedNews := displayedNews st;
     currentFilter := v; currentPage := currentPage st;
     localStorage := localStorage st; searchInput := searchInput st;
     loadingState_hidden := loadingState_hidden st;
     errorState_hidden := errorState_hidden st;
     newsGrid_hidden := newsGrid_hidden st;
     loadMoreContainer_hidden := loadMoreContainer_hidden st;
     newsGrid := newsGrid st; articleModal := articleModal st;
     articleModal_shown := articleModal_shown st;
     requests := requests st; clock_reads := clock_reads st |}.

Definition set_currentPage v st :=
  {| allNews := allNews st; displayedNews := displayedNews st;
     currentFilter := currentFilter st; currentPage := v;
     localStorage := localStorage st; searchInput := searchInput st;
     loadingState_hidden := loadingState_hidden st;
     errorState_hidden := errorState_hidden st;
     newsGrid_hidden := newsGrid_hidden st;
     loadMoreContainer_hidden := loadMoreContainer_hidden st;
     newsGrid := newsGrid st; articleModal := articleModal st;
     articleModal_shown := articleModal_shown st;
     requests := requests st; clock_reads := clock_reads st |}.

Definition set_localStorage v st :=
  {| allNews := allNews st; displayedNews := displayedNews st;
     currentFilter := currentFilter st; currentPage := currentPage st;
     localStorage := v; searchInput := searchInput st;
     loadingState_hidden := loadingState_hidden st;
     errorState_hidden := errorState_hidden st;
     newsGrid_hidden := newsGrid_hidden st;
     loadMoreContainer_hidden := loadMoreContainer_hidden st;
     newsGrid := newsGrid st; articleModal := articleModal st;
     articleModal_shown := articleModal_shown st;
     requests := requests st; clock_reads := clock_reads st |}.

Definition set_searchInput v st :=
  {| allNews := allNews st; displayedNews := displayedNews st;
     currentFilter := currentFilter st; currentPage := currentPage st;
     localStorage := localStorage st; searchInput := v;
     loadingState_hidden := loadingState_hidden st;
     errorState_hidden := errorState_hidden st;
     newsGrid_hidden := newsGrid_hidden st;
     loadMoreContainer_hidden := loadMoreContainer_hidden st;
     newsGrid := newsGrid st; articleModal := articleModal st;
     articleModal_shown := articleModal_shown st;
     requests := requests st; clock_reads := clock_reads st |}.

Definition set_loadingState_hidden v st :=
  {| allNews := allNews st; displayedNews := displayedNews st;
     currentFilter := currentFilter st; currentPage := currentPage st;
     localStorage := localStorage st; searchInput := searchInput st;
     loadingState_hidden := v;
     errorState_hidden := errorState_hidden st;
     newsGrid_hidden := newsGrid_hidden st;
     loadMoreContainer_hidden := loadMoreContainer_hidden st;
     newsGrid := newsGrid st; articleModal := articleModal st;
     articleModal_shown := articleModal_shown st;
     requests := requests st; clock_reads := clock_reads st |}.

Definition set_errorState_hidden v st :=
  {| allNews := allNews st; displayedNews := displayedNews st;
     currentFilter := currentFilter st; currentPage := currentPage st;
     localStorage := localStorage st; searchInput := searchInput st;
     loadingState_hidden := loadingState_hidden st;
     errorState_hidden := v;
     newsGrid_hidden := newsGrid_hidden st;
     loadMoreContainer_hidden := loadMoreContainer_hidden st;
     newsGrid := newsGrid st; articleModal := articleModal st;
     articleModal_shown := articleModal_shown st;
     requests := requests st; clock_reads := clock_reads st |}.

Definition set_newsGrid_hidden v st :=
  {| allNews := allNews st; displayedNews := displayedNews st;
     currentFilter := currentFilter st; currentPage := currentPage st;
     localStorage := localStorage st; searchInput := searchInput st;
     loadingState_hidden := loadingState_hidden st;
     errorState_hidden := errorState_hidden st;
     newsGrid_hidden := v;
     loadMoreContainer_hidden := loadMoreContainer_hidden st;
     newsGrid := newsGrid st; articleModal := articleModal st;
     articleModal_shown := articleModal_shown st;
     requests := requests st; clock_reads := clock_reads st |}.

Definition set_loadMoreContainer_hidden v st :=
  {| allNews := allNews st; displayedNews := displayedNews st;
     currentFilter := currentFilter st; currentPage := currentPage st;
     localStorage := localStorage st; searchInput := searchInput st;
     loadingState_hidden := loadingState_hidden st;
     errorState_hidden := errorState_hidden st;
     newsGrid_hidden := newsGrid_hidden st;
     loadMoreContainer_hidden := v;
     newsGrid := newsGrid st; articleModal := articleModal st;
     articleModal_shown := articleModal_shown st;
     requests := requests st; clock_reads := clock_reads st |}.

Definition set_newsGrid v st :=
  {| allNews := allNews st; displayedNews := displayedNews st;
     currentFilter := currentFilter st; currentPage := currentPage st;
     localStorage := localStorage st; searchInput := searchInput st;
     loadingState_hidden := loadingState_hidden st;
     errorState_hidden := errorState_hidden st;
     newsGrid_hidden := newsGrid_hidden st;
     loadMoreContainer_hidden := loadMoreContainer_hidden st;
     newsGrid := v; articleModal := articleModal st;
     articleModal_shown := articleModal_shown st;
     requests := requests st; clock_reads := clock_reads st |}.

Definition set_articleModal v shown st :=
  {| allNews := allNews st; displayedNews := displayedNews st;
     currentFilter := currentFilter st; currentPage := currentPage st;
     localStorage := localStorage st; searchInput := searchInput st;
     loadingState_hidden := loadingState_hidden st;
     errorState_hidden := errorState_hidden st;
     newsGrid_hidden := newsGrid_hidden st;
     loadMoreContainer_hidden := loadMoreContainer_hidden st;
     newsGrid := newsGrid st; articleModal := v;
     articleModal_shown := shown;
     requests := requests st; clock_reads := clock_reads st |}.

Definition set_requests v st :=
  {| allNews := allNews st; displayedNews := displayedNews st;
     currentFilter := currentFilter st; currentPage := currentPage st;
     localStorage := localStorage st; searchInput := searchInput st;
     loadingState_hidden := loadingState_hidden st;
     errorState_hidden := errorState_hidden st;
     newsGrid_hidden := newsGrid_hidden st;
     loadMoreContainer_hidden := loadMoreContainer_hidden st;
     newsGrid := newsGrid st; articleModal := articleModal st;
     articleModal_shown := articleModal_shown st;
     requests := v; clock_reads := clock_reads st |}.

Definition set_clock_reads v st :=
  {| allNews := allNews st; displayedNews := displayedNews st;
     currentFilter := currentFilter st; currentPage := currentPage st;
     localStorage := localStorage st; searchInput := searchInput st;
     loadingState_hidden := loadingState_hidden st;
     errorState_hidden := errorState_hidden st;
     newsGrid_hidden := newsGrid_hidden st;
     loadMoreContainer_hidden := loadMoreContainer_hidden st;
     newsGrid := newsGrid st; articleModal := articleModal st;
     articleModal_shown := articleModal_shown st;
     requests := requests st; clock_reads := v |}.

(** A state when the script has loaded: the initial values of the module
    variables over a given storage and search box, nothing sent, the clock not
    read; the loading state shown, the rest hidden. *)
Definition initial (storage : gmap string string) (search : option string) : State :=
  {| allNews := []; displayedNews := []; currentFilter := "all"; currentPage := 1%nat;
     localStorage := storage; searchInput := search;
     loadingState_hidden := false; errorState_hidden := true;
     newsGrid_hidden := true; loadMoreContainer_hidden := true;
     newsGrid := []; articleModal := None; articleModal_shown := false;
     requests := []; clock_reads := 0%nat |}.

(* ================================================================== *)
(** * Statements that may throw *)
(* ================================================================== *)

Inductive Error := TypeError | SyntaxError.

(** A statement returns a value or throws; the state it leaves is kept
    either way. *)
Inductive Outcome (A : Type) :=
  | Returned (a : A) (st : State)
  | Thrown (e : Error) (st : State).
Arguments Returned {A} a st.
Arguments Thrown {A} e st.

Definition M (A : Type) : Type := State → Outcome A.

Definition ret {A} (a : A) : M A := λ st, Returned a st.
Definition bind {A B} (m : M A) (k : A → M B) : M B :=
  λ st, match m st with
        | Returned a st' => k a st'
        | Thrown e st' => Thrown e st'
        end.
Definition throw {A} (e : Error) : M A := λ st, Thrown e st.
(** [try { m } catch (e) { handler }] *)
Definition try_catch {A} (m : M A) (handler : Error → M A) : M A :=
  λ st, match m st with
        | Returned a st' => Returned a st'
        | Thrown e st' => handler e st'
        end.
Definition read {A} (f : State → A) : M A := λ st, Returned (f st) st.
Definition update (f : State → State) : M unit := λ st, Returned tt (f st).

Declare Scope js_scope.
Delimit Scope js_scope with js.
Notation "'let*' x ':=' m 'in' k" := (bind m (λ x, k))
  (at level 10, x name, m at level 100, k at level 200) : js_scope.
Notation "m ';;' k" := (bind m (λ _, k))
  (at level 100, k at level 200, right associativity) : js_scope.

(** [list.forEach(body)] *)
Fixpoint forEach {A} (l : list A) (body : A → M unit) : M unit :=
  match l with
  | [] => ret tt
  | x :: l' => bind (body x) (λ _, forEach l' body)
  end.

Definition state_of {A} (o : Outcome A) : State :=
  match o with Returned _ st => st | Thrown _ st => st end.

(* ================================================================== *)
(** * The module's functions *)
(* ================================================================== *)

Section Program.
Context {browser : Browser} {world : World}.
Local Open Scope js_scope.

(** [new Date()]: the next reading of the clock. *)
Definition new_Date : M Z :=
  λ st, Returned (clock (clock_reads st))
                 (set_clock_reads (S (clock_reads st)) st).

(** [temp.textContent || temp.innerText || ''] on a detached element, whose
    [innerText] is its [textContent]. *)
Definition stripHTML (str : string) : string :=
  let text := html_textContent str in
  JS.or_else (Some text) (JS.or_else (Some text) "").

(** ** The view: displayNews, filterNews, searchNews, loadMoreNews *)

Definition matches_search (searchTerm : string) (article : Article) : bool :=
  JS.includes (JS.toLowerCase (title article)) searchTerm
  || JS.includes (JS.toLowerCase (description article)) searchTerm.

(** [document.getElementById('searchInput')?.value.toLowerCase() || ''] *)
Definition searchTerm_of (st : State) : string :=
  JS.or_else (JS.toLowerCase <$> searchInput st) "".

(** The value [displayNews] gives to [displayedNews]. *)
Definition filtered (st : State) : list Article :=
  let by_category :=
    if String.eqb (currentFilter st) "all" then allNews st
    else filter (λ article, category article = currentFilter st) (allNews st) in
  let searchTerm := searchTerm_of st in
  if JS.truthy (Some searchTerm)
  then filter (λ article, matches_search searchTerm article = true) by_category
  else by_category.

(** [displayedNews.slice(0, currentPage * NEWS_PER_PAGE)] *)
Definition paginatedNews (st : State) : list Article :=
  take (currentPage st * NEWS_PER_PAGE) (displayedNews st).

Definition card_of (article : Article) : Card :=
  {| card_image_src := sanitizeURL (image article); card_article := article |}.

(** The text of the [lastUpdated] element is not embedded. *)
Definition displayNews (st : State) : State :=
  let st := set_loadingState_hidden true st in
  let st := set_displayedNews (filtered st) st in
  let paginated := paginatedNews st in
  let st := set_newsGrid (card_of <$> paginated) st in
  let st := set_newsGrid_hidden false st in
  set_loadMoreContainer_hidden
    (negb (length paginated <? length (displayedNews st))%nat) st.

Definition filterNews (category : string) (st : State) : State :=
  displayNews (set_currentPage 1%nat (set_currentFilter category st)).

Definition searchNews (st : State) : State :=
  displayNews (set_currentPage 1%nat st).

Definition loadMoreNews (st : State) : State :=
  displayNews (set_currentPage (S (currentPage st)) st).

(** What the grid shows: the articles of its cards, in order. *)
Definition getVisibleArticles (st : State) : list Article :=
  card_article <$> newsGrid st.

(** ** The modal *)

Definition openArticleModal (article : Article) (st : State) : State :=
  set_articleModal
    (Some {| modalTitle := title article;
             modalImage_src := sanitizeURL (image article);
             modalImage_alt := title article;
             modalLink_href := sanitizeURL (link article) |})
    true st.

Definition closeArticleModal (st : State) : State :=
  set_articleModal (articleModal st) false st.

(** A click on the card at [index] of the grid. *)
Definition click_card (index : nat) (st : State) : State :=
  match newsGrid st !! index with
  | Some card => openArticleModal (card_article card) st
  | None => st
  end.

(** ** Normalization of one feed item *)

(** [item.pubDate || new Date().toISOString()] *)
Definition pubDate_or_now (item : RawItem) : M string :=
  if JS.truthy (item_pubDate item)
  then ret (JS.or_else (item_pubDate item) "")
  else let* now := new_Date in ret (Date_toISOString now).

(** The object literal of the inner [forEach], given its [pubDate]. *)
Definition article_of (item : RawItem) (date : string) : Article :=
  let category :=
    categorizeArticle (JS.or_else (item_title item) "")
                      (JS.or_else (item_description item) "") in
  let link := JS.or_else (item_link item) "#" in
  {| title := JS.or_else (item_title item) "Untitled";
     description :=
       match item_description item with
       | Some d =>
           if JS.truthy (Some d)
           then JS.substring0 DESCRIPTION_MAX_LENGTH (stripHTML d) +:+ "..."
           else "No description available"
       | None => "No description available"
       end;
     link := link;
     pubDate := date;
     source := JS.or_else (item_author item) (getHostname link);
     image := JS.or_else (item_thumbnail item)
                (JS.or_else (item_enclosure_link item) FALLBACK_URL);
     category := category |}.

(** [allNews.push({...})] *)
Definition push_item (item : RawItem) : M unit :=
  let* date := pubDate_or_now item in
  update (λ st, set_allNews (allNews st ++ [article_of item date]) st).

(** The body of [results.forEach]. *)
Definition push_result (result : FeedResult) : M unit :=
  match result with
  | NullBody => throw TypeError
  | Rejected => ret tt          (* not a member of [results]: see [settle] *)
  | Body status items =>
      match items with
      | Some l => if String.eqb status "ok" then forEach l push_item else ret tt
      | None => ret tt
      end
  end.

(** ** Sorting and deduplication *)

(** The comparator [(a, b) => new Date(b.pubDate) - new Date(a.pubDate)];
    [None] is [NaN]. *)
Definition by_date (a b : Article) : option Z :=
  match Date_parse (pubDate b), Date_parse (pubDate a) with
  | Some tb, Some ta => Some (tb - ta)
  | _, _ => None
  end.

(** [Array.prototype.sort] reads a [NaN] of the comparator as [+0]. An
    element stays in front of another unless the comparator is positive. *)
Definition stays_before (a b : Article) : bool :=
  match by_date a b with
  | Some v => v <=? 0
  | None => true
  end.

(** [allNews.sort(by_date)]. The sort is stable; with a comparator that is
    consistent (every date is valid, or all compare as equal) its result is
    determined and is the one of this insertion from the right. *)
Fixpoint insert_sorted (a : Article) (l : list Article) : list Article :=
  match l with
  | [] => [a]
  | b :: l' => if stays_before a b then a :: l else b :: insert_sorted a l'
  end.

Fixpoint sort (l : list Article) : list Article :=
  match l with
  | [] => []
  | a :: l' => insert_sorted a (sort l')
  end.

(** The filter with the [seen] set. *)
Fixpoint remove_duplicates (seen : gset string) (l : list Article) : list Article :=
  match l with
  | [] => []
  | article :: l' =>
      if decide (title article ∈ seen) then remove_duplicates seen l'
      else article :: remove_duplicates ({[title article]} ∪ seen) l'
  end.

(** ** fetchAINews *)

Definition RSS2JSON_API : string := "https://api.rss2json.com/v1/api.json?rss_url=".

Definition request_url (feed : string) : string :=
  RSS2JSON_API +:+ URL.encodeURIComponent feed.

(** [.catch(err => ({ status: 'error', items: [] }))] *)
Definition settle (r : FeedResult) : FeedResult :=
  match r with
  | Rejected => Body "error" (Some [])
  | _ => r
  end.

(** One mapped promise: the request is sent and settles. *)
Definition fetch_feed (feed : string) : M FeedResult :=
  update (λ st, set_requests (requests st ++ [request_url feed]) st) ;;
  ret (settle (response (request_url feed))).

Fixpoint fetch_all (feeds : list string) : M (list FeedResult) :=
  match feeds with
  | [] => ret []
  | feed :: rest =>
      let* r := fetch_feed feed in
      let* rs := fetch_all rest in
      ret (r :: rs)
  end.

(** [cachedData && cacheTime && (now - parseInt(cacheTime)) < CACHE_DURATION_MS] *)
Definition cache_is_fresh (cachedData cacheTime : option string) (now : Z) : bool :=
  JS.truthy cachedData && JS.truthy cacheTime &&
  match cacheTime ≫= JS.parseInt with
  | Some fetchedAt => now - fetchedAt <? CACHE_DURATION_MS
  | None => false
  end.

(** The inner [try] block: [allNews = JSON.parse(cachedData); displayNews();
    return]. A parsed value that is no array makes [displayNews] throw at
    [filter], [slice] or [map], after it has hidden the loading state. The
    variables [allNews] and [displayedNews] may hold that value afterwards;
    the state keeps their former lists, as neither variable is read before
    it is assigned again. *)
Definition show_cached (cachedData : string) : M unit :=
  match JSON_parse cachedData with
  | JSON_throws => throw SyntaxError
  | JSON_not_array =>
      update (set_loadingState_hidden true) ;; throw TypeError
  | JSON_articles l =>
      update (set_allNews l) ;; update displayNews
  end.

(** The statements after the cache check. *)
Definition aggregate (now : Z) : M unit :=
  let* results := fetch_all RSS_FEEDS in
  update (set_allNews []) ;;
  forEach results push_result ;;
  update (λ st, set_allNews (sort (allNews st)) st) ;;
  update (λ st, set_allNews (remove_duplicates ∅ (allNews st)) st) ;;
  update (λ st, set_localStorage
                  (<["aiNewsCache" := JSON_stringify (allNews st)]> (localStorage st)) st) ;;
  update (λ st, set_localStorage
                  (<["aiNewsCacheTime" := JS.toString now]> (localStorage st)) st) ;;
  update displayNews.

(** The outer [try] block. [true] is the early [return] of the cache hit. *)
Definition fetchAINews_try : M unit :=
  let* cachedData := read (λ st, localStorage st !! "aiNewsCache") in
  let* cacheTime := read (λ st, localStorage st !! "aiNewsCacheTime") in
  let* now := new_Date in
  let* returned :=
    if cache_is_fresh cachedData cacheTime now
    then try_catch (show_cached (JS.or_else cachedData "") ;; ret true)
                   (λ parseError, ret false)
    else ret false in
  if returned : bool then ret tt else aggregate now.

(** The [await] is taken as one step: no other handler runs between the
    requests and their results. *)
Definition fetchAINews : M unit :=
  update (set_loadingState_hidden false) ;;
  update (set_errorState_hidden true) ;;
  update (set_newsGrid_hidden true) ;;
  try_catch fetchAINews_try
    (λ error,
       update (set_loadingState_hidden true) ;;
       update (set_errorState_hidden false)).

End Program.

(* ================================================================== *)
(** * Sorting by date and removing duplicates *)
(* ================================================================== *)

Section Ordering.
Context {browser : Browser}.

(** The time value of an article's date; [None] when the date is invalid. *)
Definition time_of (a : Article) : option Z := Date_parse (pubDate a).

(** [a] has a valid date, and so has [b], and [a] is not older than [b]. *)
Definition not_older (a b : Article) : Prop :=
  ∃ ta tb, time_of a = Some ta ∧ time_of b = Some tb ∧ tb ≤ ta.

Definition dated (a : Article) : Prop := is_Some (time_of a).

#[global] Instance dated_dec a : Decision (dated a).
Proof. unfold dated. apply _. Defined.

Lemma insert_sorted_perm a l : insert_sorted a l ≡ₚ a :: l.
Proof.
  induction l as [|b l IH]; cbn; [done|].
  destruct (stays_before a b); [done|].
  by rewrite IH, Permutation_swap.
Qed.

Lemma sort_perm l : sort l ≡ₚ l.
Proof.
  induction l as [|a l IH]; cbn; [done|].
  by rewrite insert_sorted_perm, IH.
Qed.

Lemma elem_of_sort a l : a ∈ sort l ↔ a ∈ l.
Proof. by rewrite sort_perm. Qed.

Lemma stays_before_dated a b ta tb :
  time_of a = Some ta → time_of b = Some tb →
  stays_before a b = bool_decide (tb ≤ ta).
Proof.
  unfold stays_before, by_date, time_of. intros -> ->.
  destruct (Z.leb_spec (tb - ta) 0);
    [rewrite bool_decide_eq_true_2 | rewrite bool_decide_eq_false_2]; lia.
Qed.

Lemma not_older_trans a b c : not_older a b → not_older b c → not_older a c.
Proof.
  intros (ta & tb & Ha & Hb & Hab) (tb' & tc & Hb' & Hc & Hbc).
  exists ta, tc. repeat split; [done..|].
  rewrite Hb in Hb'. injection Hb' as <-. lia.
Qed.

Lemma insert_sorted_sorted a l :
  dated a → Forall dated l →
  StronglySorted not_older l → StronglySorted not_older (insert_sorted a l).
Proof.
  intros [ta Ha] Hl Hs.
  induction l as [|b l IH]; cbn; [repeat constructor|].
  apply Forall_cons in Hl as [[tb Hb] Hl].
  apply StronglySorted_cons in Hs as [Hbl Hs].
  rewrite (stays_before_dated a b ta tb Ha Hb).
  case_bool_decide as Hle.
  - assert (not_older a b) as Hab by (by exists ta, tb).
    apply StronglySorted_cons. split.
    + constructor; [done|].
      eapply Forall_impl; [exact Hbl|]. intros c. by apply not_older_trans.
    + by apply StronglySorted_cons.
  - apply StronglySorted_cons. split; [|by apply IH].
    rewrite insert_sorted_perm. constructor; [|done].
    exists tb, ta. repeat split; [done..|lia].
Qed.

Lemma sort_sorted l : Forall dated l → StronglySorted not_older (sort l).
Proof.
  induction l as [|a l IH]; cbn; [constructor|].
  intros [Ha Hl]%Forall_cons.
  apply insert_sorted_sorted; [done| |by apply IH].
  by rewrite sort_perm.
Qed.

(** An article moves behind another one only when both dates are valid and
    the other one is strictly newer. *)
Lemma stays_before_false a b :
  stays_before a b = false →
  ∃ ta tb, time_of a = Some ta ∧ time_of b = Some tb ∧ ta < tb.
Proof.
  unfold stays_before, by_date, time_of.
  destruct (Date_parse (pubDate b)) as [tb|]; [|done].
  destruct (Date_parse (pubDate a)) as [ta|]; [|done].
  intros Hlt%Z.leb_gt. exists ta, tb. repeat split; [done..|lia].
Qed.

(** The sort is stable: articles with one time value, and articles without
    a valid date, keep their order. *)
Lemma insert_sorted_stable k a l :
  filter (λ x, time_of x = k) (insert_sorted a l)
  = filter (λ x, time_of x = k) (a :: l).
Proof.
  induction l as [|b l IH]; cbn [insert_sorted]; [done|].
  destruct (stays_before a b) eqn:Hab; [done|].
  apply stays_before_false in Hab as (ta & tb & Ha & Hb & Hlt).
  rewrite filter_cons, IH, !filter_cons.
  destruct (decide (time_of b = k)) as [Hbk|Hbk];
    destruct (decide (time_of a = k)) as [Hak|Hak]; try done.
  assert (ta = tb) by congruence. lia.
Qed.

Lemma sort_stable k l :
  filter (λ x, time_of x = k) (sort l) = filter (λ x, time_of x = k) l.
Proof.
  induction l as [|a l IH]; cbn [sort]; [done|].
  by rewrite insert_sorted_stable, !filter_cons, IH.
Qed.

(** The filter keeps, of every title that is not in [seen], the first
    article that carries it, and nothing else. *)
Lemma remove_duplicates_by_title seen l t :
  filter (λ b, title b = t) (remove_duplicates seen l)
  = if decide (t ∈ seen) then [] else take 1 (filter (λ b, title b = t) l).
Proof.
  revert seen. induction l as [|a l IH]; intros seen; cbn [remove_duplicates].
  { by destruct (decide _). }
  destruct (decide (title a ∈ seen)) as [Hin|Hnot].
  - rewrite IH. destruct (decide (t ∈ seen)) as [|Ht]; [done|].
    rewrite filter_cons_False; [done|]. by intros <-.
  - destruct (decide (title a = t)) as [Heq|Hne].
    + rewrite !filter_cons_True by done. rewrite IH.
      rewrite decide_True by (apply elem_of_union_l, elem_of_singleton; done).
      rewrite decide_False by (by rewrite <- Heq). done.
    + rewrite !filter_cons_False by done. rewrite IH.
      destruct (decide (t ∈ seen)) as [Ht|Ht].
      * by rewrite decide_True by (by apply elem_of_union_r).
      * rewrite decide_False; [done|].
        rewrite elem_of_union, elem_of_singleton. by intros [->|?].
Qed.

Lemma remove_duplicates_sublist seen l : remove_duplicates seen l `sublist_of` l.
Proof.
  revert seen. induction l as [|a l IH]; intros seen; cbn; [done|].
  destruct (decide _); [by apply sublist_cons | by apply sublist_skip].
Qed.

Lemma StronglySorted_sublist_of {A} (R : relation A) (k l : list A) :
  k `sublist_of` l → StronglySorted R l → StronglySorted R k.
Proof.
  induction 1 as [|x k l Hkl IH|x k l Hkl IH]; intros Hs; [done| |].
  - apply StronglySorted_cons in Hs as [Hx Hs].
    apply StronglySorted_cons. split; [|auto].
    rewrite Forall_forall in *. intros y Hy. apply Hx.
    by eapply elem_of_sublist.
  - apply StronglySorted_cons in Hs as [_ Hs]. auto.
Qed.

(** Adjacent articles of a strongly sorted list are in order. *)
Lemma StronglySorted_adjacent {A} (R : relation A) (l : list A) i x y :
  StronglySorted R l → l !! i = Some x → l !! S i = Some y → R x y.
Proof.
  intros Hs Hx Hy.
  rewrite <- (take_drop i l) in Hs.
  apply StronglySorted_app_1_r in Hs.
  rewrite (drop_S l x i Hx) in Hs.
  apply StronglySorted_cons in Hs as [Hall _].
  rewrite Forall_forall in Hall. apply Hall.
  apply list_elem_of_lookup. exists 0%nat.
  by rewrite lookup_drop, Nat.add_0_r.
Qed.

End Ordering.

(* ================================================================== *)
(** * A small engine to run the module on *)
(* ================================================================== *)

(** Concrete built-ins for the examples of this file. They implement the
    part of each built-in that the examples use: the date-time format
    [YYYY-MM-DDTHH:mm:ss.sssZ] that [toISOString] writes, the JSON text of an
    array of articles as [JSON.stringify] writes it, tags dropped from markup,
    and the host of a URL with a special scheme. *)
Module Engine.

Definition digit (n : Z) : ascii := ascii_of_N (Z.to_N (48 + n mod 10)).

(** [n] in [width] decimal digits, zero padded. *)
Fixpoint pad (width : nat) (n : Z) : string :=
  match width with
  | O => EmptyString
  | S w => pad w (n / 10) +:+ String (digit n) EmptyString
  end.

Definition MS_PER_DAY : Z := 86400000.

(** Year, month and day of a day number counted from 1970-01-01. *)
Definition civil_from_days (days : Z) : Z * Z * Z :=
  let z := days + 719468 in
  let era := z / 146097 in
  let doe := z - era * 146097 in
  let yoe := (doe - doe / 1460 + doe / 36524 - doe / 146096) / 365 in
  let doy := doe - (365 * yoe + yoe / 4 - yoe / 100) in
  let mp := (5 * doy + 2) / 153 in
  let d := doy - (153 * mp + 2) / 5 + 1 in
  let m := if mp <? 10 then mp + 3 else mp - 9 in
  (yoe + era * 400 + (if m <=? 2 then 1 else 0), m, d).

Definition days_from_civil (y m d : Z) : Z :=
  let y := if m <=? 2 then y - 1 else y in
  let era := y / 400 in
  let yoe := y - era * 400 in
  let doy := (153 * (if 2 <? m then m - 3 else m + 9) + 2) / 5 + d - 1 in
  let doe := yoe * 365 + yoe / 4 - yoe / 100 + doy in
  era * 146097 + doe - 719468.

Definition toISOString (t : Z) : string :=
  let '(y, m, d) := civil_from_days (t / MS_PER_DAY) in
  let ms := t mod MS_PER_DAY in
  (if (0 <=? y) && (y <=? 9999) then pad 4 y
   else (if y <? 0 then "-" else "+") +:+ pad 6 (Z.abs y))
  +:+ "-" +:+ pad 2 m +:+ "-" +:+ pad 2 d
  +:+ "T" +:+ pad 2 (ms / 3600000) +:+ ":" +:+ pad 2 (ms / 60000 mod 60)
  +:+ ":" +:+ pad 2 (ms / 1000 mod 60) +:+ "." +:+ pad 3 (ms mod 1000) +:+ "Z".

(** Reads decimal digits; [None] on any other character. *)
Fixpoint number (s : string) (acc : Z) : option Z :=
  match s with
  | EmptyString => Some acc
  | String c s' =>
      if URL.is_digit c
      then number s' (acc * 10 + (Z.of_N (N_of_ascii c) - 48))
      else None
  end.

Definition field (s : string) (start len : nat) : option Z :=
  let f := String.substring start len s in
  if (String.length f =? len)%nat then number f 0 else None.

Definition days_in_month (y m : Z) : Z :=
  days_from_civil (if m =? 12 then y + 1 else y) (if m =? 12 then 1 else m + 1) 1
  - days_from_civil y m 1.

(** [YYYY-MM-DDTHH:mm:ss.sssZ], every field in range. *)
Definition parse_date (s : string) : option Z :=
  if negb (String.eqb (String.substring 4 1 s) "-"
           && String.eqb (String.substring 7 1 s) "-"
           && String.eqb (String.substring 10 1 s) "T"
           && String.eqb (String.substring 13 1 s) ":"
           && String.eqb (String.substring 16 1 s) ":"
           && String.eqb (String.substring 19 1 s) "."
           && String.eqb (String.substring 23 2 s) "Z")
  then None
  else
    y ← field s 0 4; m ← field s 5 2; d ← field s 8 2;
    hh ← field s 11 2; mm ← field s 14 2; ss ← field s 17 2; ms ← field s 20 3;
    if (1 <=? m) && (m <=? 12) && (1 <=? d) && (d <=? days_in_month y m)
       && (hh <=? 23) && (mm <=? 59) && (ss <=? 59)
    then Some (days_from_civil y m d * MS_PER_DAY
               + hh * 3600000 + mm * 60000 + ss * 1000 + ms)
    else None.

(** *** JSON text of an array of articles *)

Definition hex4 (n : N) : string :=
  String "0" (String "0"
    (String (JS.lower_char (URL.hex_digit (n / 16)))
       (String (JS.lower_char (URL.hex_digit (n mod 16))) ""))).

Fixpoint quote_body (s : string) : string :=
  match s with
  | EmptyString => EmptyString
  | String c s' =>
      let n := N_of_ascii c in
      (if (n =? 34)%N then "\" +:+ String c ""
       else if (n =? 92)%N then "\\"
       else if (n =? 8)%N then "\b"
       else if (n =? 12)%N then "\f"
       else if (n =? 10)%N then "\n"
       else if (n =? 13)%N then "\r"
       else if (n =? 9)%N then "\t"
       else if (n <? 32)%N then "\u" +:+ hex4 n
       else String c "") +:+ quote_body s'
  end.

Definition quote (s : string) : string :=
  String (ascii_of_N 34) (quote_body s) +:+ String (ascii_of_N 34) "".

Definition member (key value : string) : string := quote key +:+ ":" +:+ quote value.

Definition stringify_article (a : Article) : string :=
  "{" +:+ member "title" (title a) +:+ "," +:+ member "description" (description a)
  +:+ "," +:+ member "link" (link a) +:+ "," +:+ member "pubDate" (pubDate a)
  +:+ "," +:+ member "source" (source a) +:+ "," +:+ member "image" (image a)
  +:+ "," +:+ member "category" (category a) +:+ "}".

Fixpoint join (l : list string) : string :=
  match l with
  | [] => ""
  | [x] => x
  | x :: l' => x +:+ "," +:+ join l'
  end.

Definition stringify (l : list Article) : string :=
  "[" +:+ join (stringify_article <$> l) +:+ "]".

(** [s] without the prefix [p]. *)
Fixpoint expect (p s : string) : option string :=
  match p, s with
  | EmptyString, _ => Some s
  | String a p', String b s' => if Ascii.eqb a b then expect p' s' else None
  | String _ _, EmptyString => None
  end.

Definition hex_value (c : ascii) : option Z :=
  match JS.digit_value c with
  | Some d => if d <? 16 then Some d else None
  | None => None
  end.

(** The characters of a JSON string after its opening quote, and the text
    after its closing quote. Escapes above U+00FF are not read. *)
Fixpoint unquote_body (s : string) : option (string * string) :=
  match s with
  | EmptyString => None
  | String c s' =>
      let n := N_of_ascii c in
      if (n =? 34)%N then Some (EmptyString, s')
      else if (n =? 92)%N then
        match s' with
        | String e s'' =>
            let k := N_of_ascii e in
            let continue (x : N) (r : option (string * string)) :=
              '(body, rest) ← r; Some (String (ascii_of_N x) body, rest) in
            if (k =? 34)%N || (k =? 92)%N || (k =? 47)%N then continue k (unquote_body s'')
            else if (k =? 98)%N then continue 8%N (unquote_body s'')
            else if (k =? 102)%N then continue 12%N (unquote_body s'')
            else if (k =? 110)%N then continue 10%N (unquote_body s'')
            else if (k =? 114)%N then continue 13%N (unquote_body s'')
            else if (k =? 116)%N then continue 9%N (unquote_body s'')
            else if (k =? 117)%N then
              match s'' with
              | String "0" (String "0" (String h1 (String h2 r))) =>
                  a ← hex_value h1; b ← hex_value h2;
                  continue (Z.to_N (a * 16 + b)) (unquote_body r)
              | _ => None
              end
            else None
        | EmptyString => None
        end
      else if (n <? 32)%N then None
      else '(body, rest) ← unquote_body s'; Some (String c body, rest)
  end.

Definition read_member (key : string) (s : string) : option (string * string) :=
  expect (quote key +:+ ":" +:+ String (ascii_of_N 34) "") s ≫= unquote_body.

Definition read_article (s : string) : option (Article * string) :=
  s ← expect "{" s;
  '(t, s) ← read_member "title" s; s ← expect "," s;
  '(d, s) ← read_member "description" s; s ← expect "," s;
  '(l, s) ← read_member "link" s; s ← expect "," s;
  '(p, s) ← read_member "pubDate" s; s ← expect "," s;
  '(o, s) ← read_member "source" s; s ← expect "," s;
  '(i, s) ← read_member "image" s; s ← expect "," s;
  '(c, s) ← read_member "category" s;
  s ← expect "}" s;
  Some ({| title := t; description := d; link := l; pubDate := p;
           source := o; image := i; category := c |}, s).

(** The articles of [s] up to the closing bracket. *)
Fixpoint read_articles (fuel : nat) (s : string) : option (list Article) :=
  match fuel with
  | O => None
  | S fuel' =>
      '(a, rest) ← read_article s;
      match rest with
      | String "]" EmptyString => Some [a]
      | String "," rest' => cons a <$> read_articles fuel' rest'
      | _ => None
      end
  end.

(** [null], [true], [false] and numbers parse to values that are no arrays;
    an array of article objects parses to the articles; the rest throws. *)
Definition parse (s : string) : JSONResult :=
  if String.eqb s "null" || String.eqb s "true" || String.eqb s "false"
     || (negb (String.eqb s "") && bool_decide (is_Some (number s 0)))
  then JSON_not_array
  else if String.eqb s "[]" then JSON_articles []
  else match expect "[" s ≫= read_articles (String.length s) with
       | Some l => JSON_articles l
       | None => JSON_throws
       end.

(** *** Markup and URLs *)

(** The text outside the tags: what lies between [<] and [>] is dropped. *)
Fixpoint text_outside_tags (in_tag : bool) (s : string) : string :=
  match s with
  | EmptyString => EmptyString
  | String c s' =>
      if in_tag then text_outside_tags (negb (Ascii.eqb c ">")) s'
      else if Ascii.eqb c "<" then text_outside_tags true s'
      else String c (text_outside_tags false s')
  end.

Definition is_special (scheme : string) : bool :=
  existsb (String.eqb scheme) ["http"; "https"; "ftp"; "ws"; "wss"].

Fixpoint skip_slashes (s : string) : string :=
  match s with
  | String c s' => if Ascii.eqb c "/" || Ascii.eqb c "\" then skip_slashes s' else s
  | EmptyString => EmptyString
  end.

Fixpoint host_of (s : string) : string :=
  match s with
  | EmptyString => EmptyString
  | String c s' =>
      if existsb (Ascii.eqb c) ["/"; "\"; "?"; "#"; ":"]%char then EmptyString
      else String (JS.lower_char c) (host_of s')
  end.

(** A special scheme needs a host; other schemes have an opaque path and an
    empty host. *)
Definition after_scheme (scheme rest : string) : option string :=
  if is_special scheme then
    let host := host_of (skip_slashes rest) in
    if String.eqb host "" then None else Some host
  else Some "".

#[export] Instance browser : Browser := {|
  Date_parse := parse_date;
  Date_toISOString := toISOString;
  JSON_parse := parse;
  JSON_stringify := stringify;
  html_textContent := text_outside_tags false;
  URL_after_scheme := after_scheme
|}.

End Engine.

(* ================================================================== *)
(** * What a run of fetchAINews computes *)
(* ================================================================== *)

Section Run.
Context {browser : Browser} {world : World}.
Local Open Scope js_scope.

(** ** The loop over the items of a feed *)

(** The [pubDate] an item gets when the clock was read [reads] times. *)
Definition date_of (item : RawItem) (reads : nat) : string :=
  if JS.truthy (item_pubDate item) then JS.or_else (item_pubDate item) ""
  else Date_toISOString (clock reads).

Definition reads_after_item (item : RawItem) (reads : nat) : nat :=
  if JS.truthy (item_pubDate item) then reads else S reads.

Fixpoint articles_from (items : list RawItem) (reads : nat) : list Article :=
  match items with
  | [] => []
  | item :: rest =>
      article_of item (date_of item reads)
      :: articles_from rest (reads_after_item item reads)
  end.

Fixpoint reads_after (items : list RawItem) (reads : nat) : nat :=
  match items with
  | [] => reads
  | item :: rest => reads_after rest (reads_after_item item reads)
  end.

(** ** The loop over the results *)

(** The items the body of [results.forEach] pushes for one result. *)
Definition usable_items (r : FeedResult) : list RawItem :=
  match r with
  | Body status (Some l) => if String.eqb status "ok" then l else []
  | _ => []
  end.

Definition is_null (r : FeedResult) : bool :=
  match r with NullBody => true | _ => false end.

(** The loop runs to its end unless a result is [null]. *)
Definition completes (results : list FeedResult) : bool :=
  forallb (λ r, negb (is_null r)) results.

(** The articles pushed until the loop ends or throws. *)
Fixpoint collected (results : list FeedResult) (reads : nat) : list Article :=
  match results with
  | [] => []
  | r :: rest =>
      if is_null r then []
      else articles_from (usable_items r) reads
           ++ collected rest (reads_after (usable_items r) reads)
  end.

Fixpoint collected_reads (results : list FeedResult) (reads : nat) : nat :=
  match results with
  | [] => reads
  | r :: rest =>
      if is_null r then reads
      else collected_reads rest (reads_after (usable_items r) reads)
  end.

(** ** The whole run *)

(** What the requests of a run settle to. *)
Definition results_of (feeds : list string) : list FeedResult :=
  (λ feed, settle (response (request_url feed))) <$> feeds.

(** The state after the first three statements and the reading of [now]. *)
Definition begun (st : State) : State :=
  set_clock_reads (S (clock_reads st))
    (set_newsGrid_hidden true
       (set_errorState_hidden true (set_loadingState_hidden false st))).

Definition now_of (st : State) : Z := clock (clock_reads st).

(** The articles of a cache hit: the cache test holds and the stored text
    parses to an array of articles. *)
Definition cached_articles (st : State) : option (list Article) :=
  let cachedData := localStorage st !! "aiNewsCache" in
  let cacheTime := localStorage st !! "aiNewsCacheTime" in
  if cache_is_fresh cachedData cacheTime (now_of st) then
    match JSON_parse (JS.or_else cachedData "") with
    | JSON_articles l => Some l
    | _ => None
    end
  else None.

(** The collection before the sort, and the final collection. *)
Definition gathered (st : State) : list Article :=
  collected (results_of RSS_FEEDS) (S (clock_reads st)).

Definition final_news (st : State) : list Article :=
  remove_duplicates ∅ (sort (gathered st)).

(** The state when the loop over the results has ended or has thrown. *)
Definition gathered_state (st : State) : State :=
  set_clock_reads (collected_reads (results_of RSS_FEEDS) (S (clock_reads st)))
    (set_allNews (gathered st)
       (set_requests (requests st ++ (request_url <$> RSS_FEEDS)) (begun st))).

(** The state a run without a cache hit ends in. *)
Definition refreshed (st : State) : State :=
  if completes (results_of RSS_FEEDS) then
    displayNews
      (set_localStorage
         (<["aiNewsCacheTime" := JS.toString (now_of st)]>
            (<["aiNewsCache" := JSON_stringify (final_news st)]> (localStorage st)))
         (set_allNews (final_news st) (gathered_state st)))
  else
    set_errorState_hidden false (set_loadingState_hidden true (gathered_state st)).

Lemma State_eta st :
  st = {| allNews := allNews st; displayedNews := displayedNews st;
          currentFilter := currentFilter st; currentPage := currentPage st;
          localStorage := localStorage st; searchInput := searchInput st;
          loadingState_hidden := loadingState_hidden st;
          errorState_hidden := errorState_hidden st;
          newsGrid_hidden := newsGrid_hidden st;
          loadMoreContainer_hidden := loadMoreContainer_hidden st;
          newsGrid := newsGrid st; articleModal := articleModal st;
          articleModal_shown := articleModal_shown st;
          requests := requests st; clock_reads := clock_reads st |}.
Proof. by destruct st. Qed.

Lemma push_item_run item st :
  push_item item st
  = Returned tt
      (set_clock_reads (reads_after_item item (clock_reads st))
         (set_allNews (allNews st ++ [article_of item (date_of item (clock_reads st))]) st)).
Proof.
  unfold push_item, pubDate_or_now, date_of, reads_after_item, bind, update, ret, new_Date.
  by destruct (JS.truthy (item_pubDate item)).
Qed.

Lemma forEach_push_item items st :
  forEach items push_item st
  = Returned tt
      (set_clock_reads (reads_after items (clock_reads st))
         (set_allNews (allNews st ++ articles_from items (clock_reads st)) st)).
Proof.
  revert st. induction items as [|item rest IH]; intros st.
  - cbn. unfold ret. f_equal. rewrite app_nil_r. by rewrite (State_eta st) at 1.
  - cbn [forEach articles_from reads_after]. unfold bind at 1.
    rewrite push_item_run, IH. cbn. by rewrite <- app_assoc.
Qed.

Lemma push_result_run r st :
  push_result r st
  = (if is_null r then Thrown TypeError st
     else Returned tt
            (set_clock_reads (reads_after (usable_items r) (clock_reads st))
               (set_allNews (allNews st ++ articles_from (usable_items r) (clock_reads st)) st))).
Proof.
  assert (Returned tt st
          = Returned tt (set_clock_reads (clock_reads st)
                           (set_allNews (allNews st ++ []) st))) as Hskip.
  { f_equal. rewrite app_nil_r. by rewrite (State_eta st) at 1. }
  destruct r as [| |status [l|]]; cbn; try done.
  destruct (String.eqb status "ok"); [apply forEach_push_item | done].
Qed.

Lemma forEach_push_result results st :
  forEach results push_result st
  = (if completes results then Returned tt else Thrown TypeError)
      (set_clock_reads (collected_reads results (clock_reads st))
         (set_allNews (allNews st ++ collected results (clock_reads st)) st)).
Proof.
  revert st. induction results as [|r rest IH]; intros st.
  - cbn. unfold ret. f_equal. rewrite app_nil_r. by rewrite (State_eta st) at 1.
  - cbn [forEach completes forallb collected collected_reads].
    unfold bind at 1. rewrite push_result_run.
    destruct (is_null r); cbn [negb andb].
    + f_equal. rewrite app_nil_r. by rewrite (State_eta st) at 1.
    + rewrite IH. fold (completes rest). cbn. by rewrite <- app_assoc.
Qed.

Lemma fetch_all_run feeds st :
  fetch_all feeds st
  = Returned (results_of feeds)
      (set_requests (requests st ++ (request_url <$> feeds)) st).
Proof.
  revert st. induction feeds as [|feed rest IH]; intros st.
  - cbn. unfold ret. f_equal. rewrite app_nil_r. by rewrite (State_eta st) at 1.
  - cbn [fetch_all]. unfold bind at 1. unfold fetch_feed, bind, update, ret.
    rewrite IH. cbn. by rewrite <- app_assoc.
Qed.

(** The statements after the cache check and the [catch] of the outer
    [try], from the state the cache check leaves: [begun], with the loading
    state hidden again when [displayNews] threw on a cached value. *)
Lemma aggregate_run (loading_hidden : bool) st :
  try_catch (aggregate (now_of st))
    (λ error,
       update (set_loadingState_hidden true) ;;
       update (set_errorState_hidden false))
    (if loading_hidden then set_loadingState_hidden true (begun st) else begun st)
  = Returned tt (refreshed st).
Proof.
  unfold aggregate, try_catch. unfold bind at 1. rewrite fetch_all_run.
  unfold bind at 1. unfold update at 1. unfold bind at 1.
  rewrite forEach_push_result. unfold refreshed, gathered_state, final_news, gathered.
  destruct loading_hidden; cbn [clock_reads set_requests set_allNews allNews app
    begun set_clock_reads set_loadingState_hidden];
    destruct (completes (results_of RSS_FEEDS)); reflexivity.
Qed.

Theorem fetchAINews_run st :
  fetchAINews st
  = Returned tt
      (match cached_articles st with
       | Some l => displayNews (set_allNews l (begun st))
       | None => refreshed st
       end).
Proof.
  unfold fetchAINews.
  do 3 (unfold bind at 1; unfold update at 1).
  unfold try_catch at 1, fetchAINews_try.
  do 2 (unfold bind at 1; unfold read at 1).
  unfold bind at 1. unfold new_Date at 1.
  cbn [localStorage set_loadingState_hidden set_errorState_hidden
       set_newsGrid_hidden set_clock_reads clock_reads].
  unfold cached_articles. fold (now_of st).
  set (cachedData := localStorage st !! "aiNewsCache").
  set (cacheTime := localStorage st !! "aiNewsCacheTime").
  pose proof (aggregate_run false st) as Hfalse.
  pose proof (aggregate_run true st) as Htrue.
  unfold try_catch in Hfalse, Htrue. cbn [begun] in Hfalse, Htrue.
  destruct (cache_is_fresh cachedData cacheTime (now_of st)).
  - unfold bind at 1. unfold try_catch at 1. unfold bind at 1. unfold show_cached.
    destruct (JSON_parse (JS.or_else cachedData "")) as [| |l].
    + unfold throw, ret. exact Hfalse.
    + unfold bind at 1. unfold update at 1. unfold throw, ret. exact Htrue.
    + reflexivity.
  - unfold bind at 1. unfold ret at 1. exact Hfalse.
Qed.

(** Every run of [fetchAINews] returns: what is thrown inside is caught. *)
Corollary fetchAINews_returns st : ∃ st', fetchAINews st = Returned tt st'.
Proof. rewrite fetchAINews_run. by eexists. Qed.

End Run.

(* ================================================================== *)
(** * Pagination *)
(* ================================================================== *)

Section Pagination.
Context {browser : Browser}.

Lemma filtered_displayNews st : filtered (displayNews st) = filtered st.
Proof. reflexivity. Qed.

Lemma filtered_set_currentPage n st : filtered (set_currentPage n st) = filtered st.
Proof. reflexivity. Qed.

Lemma currentPage_displayNews st : currentPage (displayNews st) = currentPage st.
Proof. reflexivity. Qed.

Lemma filtered_loadMoreNews st : filtered (loadMoreNews st) = filtered st.
Proof. reflexivity. Qed.

Lemma currentPage_loadMoreNews st : currentPage (loadMoreNews st) = S (currentPage st).
Proof. reflexivity. Qed.

(** A new filter and a new search term start at the first page. *)
Lemma currentPage_reset category st :
  currentPage (filterNews category st) = 1%nat
  ∧ currentPage (searchNews st) = 1%nat.
Proof. split; reflexivity. Qed.

Lemma card_article_card_of (l : list Article) : card_article <$> (card_of <$> l) = l.
Proof. induction l as [|a l IH]; cbn; [done | by rewrite IH]. Qed.

Lemma getVisibleArticles_displayNews st :
  getVisibleArticles (displayNews st)
  = take (currentPage st * NEWS_PER_PAGE) (filtered st).
Proof.
  unfold getVisibleArticles, displayNews. cbn. apply card_article_card_of.
Qed.

Lemma getVisibleArticles_loadMoreNews st :
  getVisibleArticles (loadMoreNews st)
  = take (S (currentPage st) * NEWS_PER_PAGE) (filtered st).
Proof. unfold loadMoreNews. by rewrite getVisibleArticles_displayNews. Qed.

(** C8: what the grid shows after [displayNews] is the first
    [currentPage * NEWS_PER_PAGE] articles of the filtered collection; with a
    filtered collection of 25 articles and the page at 1 the grid shows 9
    articles, then 18, 25 and 25 after one, two and three [loadMoreNews]; and
    after one [loadMoreNews] it shows [min (2 * NEWS_PER_PAGE)] of the
    filtered count. *)
Theorem pagination_first_pages st :
  getVisibleArticles (displayNews st)
  = take (currentPage st * NEWS_PER_PAGE) (filtered st)
  ∧ (currentPage st = 1%nat →
     length (getVisibleArticles (loadMoreNews (displayNews st)))
     = ((2 * NEWS_PER_PAGE) `min` length (filtered st))%nat)
  ∧ (currentPage st = 1%nat → length (filtered st) = 25%nat →
     let page1 := displayNews st in
     let page2 := loadMoreNews page1 in
     let page3 := loadMoreNews page2 in
     let page4 := loadMoreNews page3 in
     length (getVisibleArticles page1) = 9%nat
     ∧ length (getVisibleArticles page2) = 18%nat
     ∧ length (getVisibleArticles page3) = 25%nat
     ∧ length (getVisibleArticles page4) = 25%nat).
Proof.
  split; [apply getVisibleArticles_displayNews|]. split.
  - intros Hpage.
    rewrite getVisibleArticles_loadMoreNews, filtered_displayNews,
      currentPage_displayNews, Hpage.
    by rewrite length_take.
  - intros Hpage Hlen. cbn zeta.
    rewrite !getVisibleArticles_loadMoreNews, getVisibleArticles_displayNews.
    rewrite !filtered_loadMoreNews, !currentPage_loadMoreNews,
      filtered_displayNews, currentPage_displayNews, Hpage.
    rewrite !length_take, Hlen. unfold NEWS_PER_PAGE. repeat split; lia.
Qed.

End Pagination.

(* ================================================================== *)
(** * Links and images *)
(* ================================================================== *)

Section Links.
Context {browser : Browser}.

Lemma sanitizeURL_http url : is_http_url url → sanitizeURL url = url.
Proof.
  intros (parsed & Hparsed & Hprotocol). unfold sanitizeURL. rewrite Hparsed.
  by destruct Hprotocol as [-> | ->].
Qed.

Lemma sanitizeURL_other url : ¬ is_http_url url → sanitizeURL url = FALLBACK_URL.
Proof.
  intros Hnot. unfold sanitizeURL.
  destruct (URL.new url) as [parsed|] eqn:Hparsed; [|done].
  destruct (String.eqb (URL.protocol parsed) "http:") eqn:Hhttp.
  { apply String.eqb_eq in Hhttp. destruct Hnot. exists parsed. auto. }
  destruct (String.eqb (URL.protocol parsed) "https:") eqn:Hhttps; [|done].
  apply String.eqb_eq in Hhttps. destruct Hnot. exists parsed. auto.
Qed.

Lemma is_http_url_dec url : is_http_url url ∨ ¬ is_http_url url.
Proof.
  unfold is_http_url. destruct (URL.new url) as [parsed|]; [|right; by intros (? & ? & _)].
  destruct (decide (URL.protocol parsed = "http:")) as [|Hn1];
    [left; exists parsed; auto|].
  destruct (decide (URL.protocol parsed = "https:")) as [|Hn2];
    [left; exists parsed; auto|].
  right. intros (p & [= <-] & [?|?]); done.
Qed.

(** A URL that [sanitizeURL] lets through starts, after leading blanks, with
    the scheme [http] or [https] in any letter case. *)
Lemma is_http_url_scheme url :
  is_http_url url →
  ∃ scheme rest,
    URL.scheme_start_state (URL.remove_tab_newline (URL.trim url)) = Some (scheme, rest)
    ∧ (scheme = "http" ∨ scheme = "https").
Proof.
  intros (parsed & Hparsed & Hprotocol). unfold URL.new in Hparsed.
  destruct (URL.scheme_start_state _) as [[scheme rest]|]; [|done].
  exists scheme, rest. split; [done|].
  destruct (URL_after_scheme scheme rest); [|done].
  injection Hparsed as <-. cbn in Hprotocol.
  destruct Hprotocol as [Hp|Hp]; [left|right].
  - change "http:" with ("http" +:+ ":") in Hp.
    revert Hp. generalize "http". clear. intros s.
    revert s. induction scheme as [|c scheme IH]; intros [|d s]; cbn; try done.
    + intros [= _ Hs]. by destruct s.
    + intros [= _ Hs]. by destruct scheme.
    + intros [= -> Hs]. f_equal. by apply IH.
  - change "https:" with ("https" +:+ ":") in Hp.
    revert Hp. generalize "https". clear. intros s.
    revert s. induction scheme as [|c scheme IH]; intros [|d s]; cbn; try done.
    + intros [= _ Hs]. by destruct s.
    + intros [= _ Hs]. by destruct scheme.
    + intros [= -> Hs]. f_equal. by apply IH.
Qed.

(** C10: [sanitizeURL] returns its input when the input parses as a URL
    with the scheme http or https, and the one fallback URL otherwise; as the
    fallback parses as an https URL, the input comes back unchanged exactly
    when it is such a URL. The same fallback URL, the default article image,
    stands in for an invalid image in a card and in the modal and for an
    invalid link in the modal. *)
Theorem sanitizeURL_single_fallback :
  (∀ url, is_http_url url → sanitizeURL url = url)
  ∧ (∀ url, ¬ is_http_url url → sanitizeURL url = FALLBACK_URL)
  ∧ (is_http_url FALLBACK_URL → ∀ url, sanitizeURL url = url ↔ is_http_url url)
  ∧ (∀ item date,
       JS.truthy (item_thumbnail item) = false →
       JS.truthy (item_enclosure_link item) = false →
       image (article_of item date) = FALLBACK_URL)
  ∧ (∀ article, ¬ is_http_url (image article) →
       card_image_src (card_of article) = FALLBACK_URL)
  ∧ (∀ article st, ¬ is_http_url (image article) →
       modalImage_src <$> articleModal (openArticleModal article st)
       = Some FALLBACK_URL)
  ∧ (∀ article st, ¬ is_http_url (link article) →
       modalLink_href <$> articleModal (openArticleModal article st)
       = Some FALLBACK_URL).
Proof.
  split; [exact sanitizeURL_http|]. split; [exact sanitizeURL_other|].
  split; [|split; [|split; [|split]]].
  - intros Hfallback url. split; [|apply sanitizeURL_http].
    intros Hsame. destruct (is_http_url_dec url) as [|Hnot]; [done|].
    rewrite (sanitizeURL_other url Hnot) in Hsame. by rewrite <- Hsame.
  - intros item date Hthumbnail Henclosure. cbn.
    destruct (item_thumbnail item) as [t|], (item_enclosure_link item) as [e|];
      cbn in *; repeat match goal with
        | H : negb (String.eqb ?s "") = false |- _ =>
            destruct (String.eqb s ""); [clear H | discriminate H]
        end; reflexivity.
  - intros article Hnot. cbn. by apply sanitizeURL_other.
  - intros article st Hnot. cbn. f_equal. by apply sanitizeURL_other.
  - intros article st Hnot. cbn. f_equal. by apply sanitizeURL_other.
Qed.

(** C2, as the claim words it: every article gets a link that parses as a
    URL, and a link that is invalid or not http or https is replaced by the
    fallback when the article is built. *)
Definition link_sanitized_at_construction : Prop :=
  (∀ item date, is_Some (URL.new (link (article_of item date))))
  ∧ (∀ item date l,
       item_link item = Some l → ¬ is_http_url l →
       link (article_of item date) = FALLBACK_URL).

(** C2 (amended): the article's link is the item's link as it came, [#]
    when the item has none; it is checked when it is used: opening the article
    sets the anchor of the modal to [sanitizeURL] of the link, which is the
    link when it parses as an http or https URL and the fallback URL when it
    does not. *)
Theorem link_sanitized_at_use item date st :
  let article := article_of item date in
  link article = JS.or_else (item_link item) "#"
  ∧ modalLink_href <$> articleModal (openArticleModal article st)
    = Some (sanitizeURL (link article))
  ∧ (is_http_url (link article) → sanitizeURL (link article) = link article)
  ∧ (¬ is_http_url (link article) → sanitizeURL (link article) = FALLBACK_URL).
Proof.
  cbn zeta. split; [done|]. split; [done|].
  split; [apply sanitizeURL_http | apply sanitizeURL_other].
Qed.

End Links.

(* ================================================================== *)
(** * Refresh: cache, requests, failure *)
(* ================================================================== *)

Section Refresh.
Context {browser : Browser} {world : World}.

(** The feed answers with status [ok] and at least one item. *)
Definition yields_items (r : FeedResult) : Prop :=
  ∃ l, r = Body "ok" (Some l) ∧ l ≠ [].

Definition answers_null (feeds : list string) : Prop :=
  ∃ feed, feed ∈ feeds ∧ response (request_url feed) = NullBody.

Lemma is_null_settle r : is_null (settle r) = is_null r.
Proof. by destruct r. Qed.

Lemma completes_results_of feeds :
  completes (results_of feeds) = true ↔ ¬ answers_null feeds.
Proof.
  unfold completes, results_of, answers_null.
  induction feeds as [|feed rest IH]; cbn.
  - split; [|done]. intros _ (feed & Hin & _). by apply elem_of_nil in Hin.
  - rewrite andb_true_iff, IH, is_null_settle. split.
    + intros [Hfeed Hrest] (f & Hin & Hnull).
      apply elem_of_cons in Hin as [->|Hin].
      * by rewrite Hnull in Hfeed.
      * apply Hrest. by exists f.
    + intros Hnone. split.
      * destruct (response (request_url feed)) eqn:Hr; try done.
        destruct Hnone. exists feed. split; [apply list_elem_of_here | done].
      * intros (f & Hin & Hnull). apply Hnone. exists f.
        split; [by apply list_elem_of_further | done].
Qed.

Lemma completes_false feeds :
  answers_null feeds → completes (results_of feeds) = false.
Proof.
  intros Hnull. destruct (completes (results_of feeds)) eqn:Hc; [|done].
  by apply completes_results_of in Hc.
Qed.

Lemma usable_items_none r : ¬ yields_items r → usable_items (settle r) = [].
Proof.
  intros Hnot. destruct r as [| |status [l|]]; cbn; try done.
  destruct (String.eqb status "ok") eqn:Hok; [|done].
  apply String.eqb_eq in Hok as ->.
  destruct l as [|item l]; [done|]. destruct Hnot. by eexists.
Qed.

Lemma collected_none feeds reads :
  (∀ feed, feed ∈ feeds → ¬ yields_items (response (request_url feed))) →
  collected (results_of feeds) reads = [].
Proof.
  revert reads. induction feeds as [|feed rest IH]; intros reads Hnone; [done|].
  cbn. destruct (is_null _); [done|].
  rewrite usable_items_none by (apply Hnone, list_elem_of_here). cbn.
  apply IH. intros f Hf. by apply Hnone, list_elem_of_further.
Qed.

Lemma parseInt_truthy time fetchedAt :
  JS.parseInt time = Some fetchedAt → JS.truthy (Some time) = true.
Proof. by destruct time. Qed.

Lemma truthy_nonempty data : data ≠ "" → JS.truthy (Some data) = true.
Proof. by destruct data. Qed.

Lemma or_else_nonempty data d : data ≠ "" → JS.or_else (Some data) d = data.
Proof. by destruct data. Qed.

(** The cache test on a stored entry with a readable time. *)
Lemma cache_is_fresh_stored data time fetchedAt now :
  data ≠ "" → JS.parseInt time = Some fetchedAt →
  cache_is_fresh (Some data) (Some time) now
  = bool_decide (now - fetchedAt < CACHE_DURATION_MS).
Proof.
  intros Hdata Htime. unfold cache_is_fresh.
  rewrite (truthy_nonempty _ Hdata), (parseInt_truthy _ _ Htime). cbn.
  rewrite Htime. destruct (Z.ltb_spec (now - fetchedAt) CACHE_DURATION_MS);
    [by rewrite bool_decide_eq_true_2 | rewrite bool_decide_eq_false_2; [done|lia]].
Qed.

Lemma cached_articles_hit st data time fetchedAt l :
  localStorage st !! "aiNewsCache" = Some data → data ≠ "" →
  localStorage st !! "aiNewsCacheTime" = Some time →
  JS.parseInt time = Some fetchedAt →
  now_of st - fetchedAt < CACHE_DURATION_MS →
  JSON_parse data = JSON_articles l →
  cached_articles st = Some l.
Proof.
  intros Hdata Hne Htime Hint Hage Hparse. unfold cached_articles.
  rewrite Hdata, Htime, (cache_is_fresh_stored _ _ _ _ Hne Hint).
  rewrite bool_decide_eq_true_2 by done.
  by rewrite (or_else_nonempty _ _ Hne), Hparse.
Qed.

Lemma cached_articles_miss st :
  localStorage st !! "aiNewsCache" = None
  ∨ localStorage st !! "aiNewsCacheTime" = None
  ∨ (∃ time fetchedAt,
       localStorage st !! "aiNewsCacheTime" = Some time
       ∧ JS.parseInt time = Some fetchedAt
       ∧ CACHE_DURATION_MS ≤ now_of st - fetchedAt) →
  cached_articles st = None.
Proof.
  unfold cached_articles, cache_is_fresh.
  intros [-> | [-> | (time & fetchedAt & -> & Hint & Hage)]]; cbn.
  - done.
  - by rewrite andb_false_r.
  - rewrite Hint. destruct (Z.ltb_spec (now_of st - fetchedAt) CACHE_DURATION_MS); [lia|].
    by rewrite andb_false_r.
Qed.

Lemma cached_articles_malformed st data :
  localStorage st !! "aiNewsCache" = Some data → JSON_parse data = JSON_throws →
  cached_articles st = None.
Proof.
  intros Hdata Hparse. unfold cached_articles, cache_is_fresh. rewrite Hdata.
  destruct (decide (data = "")) as [->|Hne]; [done|].
  rewrite (or_else_nonempty _ _ Hne), Hparse. by destruct (_ && _).
Qed.

Lemma requests_refreshed st :
  requests (refreshed st) = requests st ++ (request_url <$> RSS_FEEDS).
Proof. unfold refreshed. by destruct (completes _). Qed.

(** C4: with a stored collection that parses and a stored time less than
    the cache duration before now, [fetchAINews] sends no request; with no
    stored collection, no stored time, or a stored time at least the cache
    duration old, it sends one request per configured feed, in the order of
    [RSS_FEEDS]. *)
Theorem refresh_requests st :
  (∀ data time fetchedAt l,
     localStorage st !! "aiNewsCache" = Some data → data ≠ "" →
     localStorage st !! "aiNewsCacheTime" = Some time →
     JS.parseInt time = Some fetchedAt →
     now_of st - fetchedAt < CACHE_DURATION_MS →
     JSON_parse data = JSON_articles l →
     requests (state_of (fetchAINews st)) = requests st)
  ∧ (localStorage st !! "aiNewsCache" = None
     ∨ localStorage st !! "aiNewsCacheTime" = None
     ∨ (∃ time fetchedAt,
          localStorage st !! "aiNewsCacheTime" = Some time
          ∧ JS.parseInt time = Some fetchedAt
          ∧ CACHE_DURATION_MS ≤ now_of st - fetchedAt) →
     requests (state_of (fetchAINews st))
     = requests st ++ (request_url <$> RSS_FEEDS)).
Proof.
  rewrite fetchAINews_run. split.
  - intros data time fetchedAt l Hdata Hne Htime Hint Hage Hparse.
    by rewrite (cached_articles_hit st data time fetchedAt l).
  - intros Hmiss. rewrite (cached_articles_miss st Hmiss). cbn.
    apply requests_refreshed.
Qed.

(** C9: when the stored collection does not parse, [fetchAINews] returns
    without throwing, sends the requests of a fresh fetch, and ends in the
    state it ends in when the stored collection is absent, the storage apart;
    the storage is the same too when the run writes the cache. *)
Theorem malformed_cache_refetched st data :
  localStorage st !! "aiNewsCache" = Some data →
  JSON_parse data = JSON_throws →
  let absent := set_localStorage (delete "aiNewsCache" (localStorage st)) st in
  ∃ st' st'',
    fetchAINews st = Returned tt st'
    ∧ fetchAINews absent = Returned tt st''
    ∧ requests st' = requests st ++ (request_url <$> RSS_FEEDS)
    ∧ set_localStorage (localStorage st') st'' = st'
    ∧ (¬ answers_null RSS_FEEDS → st'' = st').
Proof.
  intros Hdata Hparse absent.
  exists (refreshed st), (refreshed absent).
  rewrite !fetchAINews_run.
  rewrite (cached_articles_malformed st data Hdata Hparse).
  rewrite (cached_articles_miss absent)
    by (left; cbn; apply lookup_delete_eq).
  split; [done|]. split; [done|]. split; [apply requests_refreshed|].
  unfold refreshed.
  destruct (completes (results_of RSS_FEEDS)) eqn:Hc.
  - split; [reflexivity|]. intros _. unfold absent, displayNews. cbn.
    by rewrite insert_delete_eq.
  - split; [reflexivity|]. intros Hnone.
    apply completes_results_of in Hnone. congruence.
Qed.

End Refresh.

(* ================================================================== *)
(** * A run in which no feed returns usable data *)
(* ================================================================== *)

Section Failure.
Context {browser : Browser} {world : World}.

(** C1, as the claim words it: with no feed that yields items and no cache
    hit, the run ends with the error state shown and the grid hidden. *)
Definition total_failure_is_surfaced : Prop :=
  ∀ st,
    (∀ feed, feed ∈ RSS_FEEDS → ¬ yields_items (response (request_url feed))) →
    cached_articles st = None →
    errorState_hidden (state_of (fetchAINews st)) = false
    ∧ newsGrid_hidden (state_of (fetchAINews st)) = true.

(** C3, as the claim words it: a run without a cache hit in which no feed
    yields items leaves the storage as it was. *)
Definition cache_kept_on_failure : Prop :=
  ∀ st,
    (∀ feed, feed ∈ RSS_FEEDS → ¬ yields_items (response (request_url feed))) →
    cached_articles st = None →
    localStorage (state_of (fetchAINews st)) = localStorage st.

Lemma final_news_none st :
  (∀ feed, feed ∈ RSS_FEEDS → ¬ yields_items (response (request_url feed))) →
  final_news st = [].
Proof.
  intros Hnone. unfold final_news, gathered. by rewrite collected_none.
Qed.

Lemma filtered_empty st : allNews st = [] → filtered st = [].
Proof.
  unfold filtered. intros ->.
  destruct (String.eqb (currentFilter st) "all");
    destruct (JS.truthy (Some (searchTerm_of st))); done.
Qed.

Lemma newsGrid_displayNews st :
  newsGrid (displayNews st)
  = card_of <$> take (currentPage st * NEWS_PER_PAGE) (filtered st).
Proof. reflexivity. Qed.

(** C1 (amended): when every feed is rejected or answers an object without
    status [ok] and items, and there is no cache hit, [fetchAINews] returns
    with an empty collection, the error state hidden and the grid shown with
    no card. The error state is shown, and the grid stays hidden, when a feed
    answers [null] and there is no cache hit. *)
Theorem total_failure_shows_empty_grid st :
  cached_articles st = None →
  ((∀ feed, feed ∈ RSS_FEEDS → ¬ yields_items (response (request_url feed))) →
   ¬ answers_null RSS_FEEDS →
   ∃ st', fetchAINews st = Returned tt st'
          ∧ allNews st' = [] ∧ newsGrid st' = []
          ∧ newsGrid_hidden st' = false ∧ errorState_hidden st' = true
          ∧ loadingState_hidden st' = true)
  ∧ (answers_null RSS_FEEDS →
     ∃ st', fetchAINews st = Returned tt st'
            ∧ newsGrid_hidden st' = true ∧ errorState_hidden st' = false
            ∧ loadingState_hidden st' = true).
Proof.
  intros Hmiss. rewrite fetchAINews_run, Hmiss. split.
  - intros Hnone Hnonull. eexists. split; [reflexivity|].
    unfold refreshed. apply completes_results_of in Hnonull. rewrite Hnonull.
    rewrite (final_news_none st Hnone).
    rewrite newsGrid_displayNews, filtered_empty by done.
    by rewrite take_nil.
  - intros Hnull. eexists. split; [reflexivity|].
    unfold refreshed. by rewrite (completes_false _ Hnull).
Qed.

(** C3 (amended): a cache hit leaves the storage as it was, and so does a
    run in which a feed answers [null]; every other run without a cache hit
    stores the final collection and the time read at its start, also when no
    feed yielded items, and the stored collection is then the empty one. *)
Theorem cache_written_by_completed_run st :
  let st' := state_of (fetchAINews st) in
  (is_Some (cached_articles st) → localStorage st' = localStorage st)
  ∧ (cached_articles st = None → answers_null RSS_FEEDS →
     localStorage st' = localStorage st)
  ∧ (cached_articles st = None → ¬ answers_null RSS_FEEDS →
     localStorage st'
     = <["aiNewsCacheTime" := JS.toString (now_of st)]>
         (<["aiNewsCache" := JSON_stringify (final_news st)]> (localStorage st)))
  ∧ (cached_articles st = None → ¬ answers_null RSS_FEEDS →
     (∀ feed, feed ∈ RSS_FEEDS → ¬ yields_items (response (request_url feed))) →
     localStorage st' !! "aiNewsCache" = Some (JSON_stringify [])
     ∧ localStorage st' !! "aiNewsCacheTime" = Some (JS.toString (now_of st))).
Proof.
  cbn zeta. rewrite fetchAINews_run.
  assert (¬ answers_null RSS_FEEDS →
          localStorage (refreshed st)
          = <["aiNewsCacheTime" := JS.toString (now_of st)]>
              (<["aiNewsCache" := JSON_stringify (final_news st)]> (localStorage st)))
    as Hwritten.
  { intros Hnonull. unfold refreshed.
    apply completes_results_of in Hnonull. by rewrite Hnonull. }
  split; [|split; [|split]].
  - intros [l ->]. reflexivity.
  - intros -> Hnull. cbn. unfold refreshed. by rewrite (completes_false _ Hnull).
  - intros -> Hnonull. cbn. by apply Hwritten.
  - intros -> Hnonull Hnone. cbn. rewrite (Hwritten Hnonull).
    rewrite (final_news_none st Hnone). split.
    + rewrite lookup_insert_ne by done. apply lookup_insert_eq.
    + apply lookup_insert_eq.
Qed.

End Failure.

(* ================================================================== *)
(** * The final collection: order and duplicates *)
(* ================================================================== *)

Section FinalCollection.
Context {browser : Browser} {world : World}.

(** The publish date as the specification's data model has it: the time
    value of [pubDate], the current time when that is invalid. *)
Definition published_at (now : Z) (a : Article) : Z := default now (time_of a).

(** C7, as the claim words it: after a run without a cache hit that does
    not throw, adjacent articles of [allNews] are in descending order of
    publish date, an invalid date counting as the current time. *)
Definition sorted_with_invalid_as_now : Prop :=
  ∀ st, cached_articles st = None → ¬ answers_null RSS_FEEDS →
    ∀ i a b,
      allNews (state_of (fetchAINews st)) !! i = Some a →
      allNews (state_of (fetchAINews st)) !! S i = Some b →
      published_at (now_of st) b ≤ published_at (now_of st) a.

(** C6, as the claim words it, for a reading [later] of "has the later
    publish date": of two collected articles with one title the final
    collection has exactly one with that title, and it is later than both. *)
Definition latest_duplicate_kept (later : State → Article → Article → Prop) : Prop :=
  ∀ st a b, cached_articles st = None → ¬ answers_null RSS_FEEDS →
    a ∈ gathered st → b ∈ gathered st → title a = title b →
    ∃ c, filter (λ x, title x = title a) (allNews (state_of (fetchAINews st))) = [c]
         ∧ later st c a ∧ later st c b.

(** The two readings: invalid dates count as the current time; or dates are
    compared as JavaScript compares them, nothing being later than or equal to
    an invalid date. *)
Definition later_with_invalid_as_now (st : State) (c a : Article) : Prop :=
  published_at (now_of st) a ≤ published_at (now_of st) c.
Definition later_with_valid_dates (st : State) (c a : Article) : Prop :=
  not_older c a.

Lemma allNews_after_run st :
  cached_articles st = None → ¬ answers_null RSS_FEEDS →
  allNews (state_of (fetchAINews st)) = final_news st.
Proof.
  intros Hmiss Hnonull. rewrite fetchAINews_run, Hmiss. cbn. unfold refreshed.
  apply completes_results_of in Hnonull. by rewrite Hnonull.
Qed.

Lemma final_news_sorted st :
  Forall dated (gathered st) → StronglySorted not_older (final_news st).
Proof.
  intros Hdated. unfold final_news.
  eapply StronglySorted_sublist_of; [apply remove_duplicates_sublist|].
  by apply sort_sorted.
Qed.

Lemma not_older_refl a : dated a → not_older a a.
Proof. intros [t Ht]. exists t, t. repeat split; [done..|lia]. Qed.

(** The first article with a given title in a sorted list is not older than
    any other article with that title. *)
Lemma first_with_title_latest l t c rest a :
  Forall dated l → StronglySorted not_older l →
  filter (λ x, title x = t) l = c :: rest →
  a ∈ l → title a = t → not_older c a.
Proof.
  intros Hdated Hsorted Hfilter Ha Ht.
  assert (a ∈ c :: rest) as Hin.
  { rewrite <- Hfilter. by apply list_elem_of_filter. }
  apply elem_of_cons in Hin as [->|Hin].
  - apply not_older_refl. rewrite Forall_forall in Hdated. by apply Hdated.
  - assert (StronglySorted not_older (c :: rest)) as Hs.
    { rewrite <- Hfilter.
      eapply StronglySorted_sublist_of; [apply sublist_filter; apply _ | done]. }
    apply StronglySorted_cons in Hs as [Hall _].
    rewrite Forall_forall in Hall. by apply Hall.
Qed.

(** C7 (amended): an item without a publish date gets the ISO string of
    the clock's reading, whose time value is that reading when the string
    parses back; any other item keeps its date string as it came. When every
    collected article has a valid date, adjacent articles of [allNews] after a
    run without a cache hit that does not throw are in descending order of
    date. *)
Theorem final_collection_sorted st :
  (∀ item reads,
     JS.truthy (item_pubDate item) = false →
     pubDate (article_of item (date_of item reads)) = Date_toISOString (clock reads)
     ∧ (Date_parse (Date_toISOString (clock reads)) = Some (clock reads) →
        time_of (article_of item (date_of item reads)) = Some (clock reads)))
  ∧ (∀ item reads,
       JS.truthy (item_pubDate item) = true →
       Some (pubDate (article_of item (date_of item reads))) = item_pubDate item)
  ∧ (cached_articles st = None → ¬ answers_null RSS_FEEDS →
     Forall dated (gathered st) →
     ∀ i a b,
       allNews (state_of (fetchAINews st)) !! i = Some a →
       allNews (state_of (fetchAINews st)) !! S i = Some b →
       not_older a b).
Proof.
  split; [|split].
  - intros item reads Habsent. unfold date_of, time_of. cbn. by rewrite Habsent.
  - intros item reads Hpresent. unfold date_of. cbn. rewrite Hpresent.
    destruct (item_pubDate item) as [d|]; [|done]. cbn in *.
    by destruct (String.eqb d "").
  - intros Hmiss Hnonull Hdated i a b. rewrite (allNews_after_run st Hmiss Hnonull).
    apply StronglySorted_adjacent. by apply final_news_sorted.
Qed.

(** C6 (amended): of two collected articles with one title the final
    collection has exactly one with that title, the first with that title in
    the sorted collection; when every collected article has a valid date, it
    is not older than either of the two. *)
Theorem first_duplicate_kept st a b :
  cached_articles st = None → ¬ answers_null RSS_FEEDS →
  a ∈ gathered st → b ∈ gathered st → title a = title b →
  ∃ c, filter (λ x, title x = title a) (allNews (state_of (fetchAINews st))) = [c]
       ∧ head (filter (λ x, title x = title a) (sort (gathered st))) = Some c
       ∧ (Forall dated (gathered st) → not_older c a ∧ not_older c b).
Proof.
  intros Hmiss Hnonull Ha Hb Htitle.
  rewrite (allNews_after_run st Hmiss Hnonull). unfold final_news.
  rewrite remove_duplicates_by_title.
  rewrite decide_False by apply not_elem_of_empty.
  destruct (filter (λ x, title x = title a) (sort (gathered st)))
    as [|c rest] eqn:Hfilter.
  { exfalso. eapply (filter_nil_not_elem_of _ _ a Hfilter); [done|].
    by apply elem_of_sort. }
  exists c. split; [done|]. split; [done|].
  intros Hdated.
  assert (Forall dated (sort (gathered st))) as Hdated'.
  { by rewrite sort_perm. }
  split; eapply first_with_title_latest;
    eauto using sort_sorted; by apply elem_of_sort.
Qed.

End FinalCollection.

(* ================================================================== *)
(** * Concrete runs on the engine *)
(* ================================================================== *)

(** ** Articles, items, worlds and states *)

Definition sample_article : Article :=
  {| title := "A headline"; description := "Some text..."; link := "https://example.com/a";
     pubDate := "2023-11-14T22:13:20.000Z"; source := "example.com";
     image := FALLBACK_URL; category := "ml" |}.

(** The item of the specification's example. *)
Definition scripted_item : RawItem :=
  {| item_title := Some "New GPT model released";
     item_description := Some "<p>OpenAI ships...</p>";
     item_link := Some "javascript:alert(1)";
     item_pubDate := None; item_author := None;
     item_thumbnail := None; item_enclosure_link := None |}.

Definition item_dated (headline : string) (date : option string) : RawItem :=
  {| item_title := Some headline; item_description := None;
     item_link := Some "https://example.com/story"; item_pubDate := date;
     item_author := Some "Example"; item_thumbnail := None;
     item_enclosure_link := None |}.

(** An item whose date does not parse, in front of one dated in 2999. *)
Definition undated_then_future : list RawItem :=
  [ item_dated "Undated" (Some "garbage");
    item_dated "Future" (Some "2999-01-01T00:00:00.000Z") ].

(** An item of the year 2000 in front of one with the same title whose date
    does not parse. *)
Definition old_then_undated : list RawItem :=
  [ item_dated "Same title" (Some "2000-01-01T00:00:00.000Z");
    item_dated "Same title" (Some "garbage") ].

(** Two items with one title and valid dates, the older one first, and a
    third item without a date. *)
Definition older_then_newer : list RawItem :=
  [ item_dated "Same title" (Some "2023-11-01T00:00:00.000Z");
    item_dated "Same title" (Some "2023-11-10T00:00:00.000Z");
    item_dated "Just in" None ].

(** Two items with one title and valid dates, the older one first, and
    between them an item whose date does not parse. *)
Definition undated_between : list RawItem :=
  [ item_dated "Same title" (Some "2023-11-01T00:00:00.000Z");
    item_dated "Other" (Some "garbage");
    item_dated "Same title" (Some "2023-11-10T00:00:00.000Z") ].

(** In every world below the clock stands at 2023-11-14T22:13:20Z. *)
Definition NOW : Z := 1700000000000.

(** Every request is rejected. *)
Definition offline : World :=
  {| clock := λ _, NOW; response := λ _, Rejected |}.

(** Every feed answers [null]. *)
Definition null_answers : World :=
  {| clock := λ _, NOW; response := λ _, NullBody |}.

(** The first feed answers with the given items, the others are rejected. *)
Definition one_feed (items : list RawItem) : World :=
  {| clock := λ _, NOW;
     response := λ url,
       if String.eqb url
            (request_url "https://techcrunch.com/tag/artificial-intelligence/feed/")
       then Body "ok" (Some items)
       else Rejected |}.

(** Nothing stored. *)
Definition first_visit : State := initial ∅ (Some "").

(** A collection of one article stored more than a day before [NOW]. *)
Definition stale_cache : State :=
  initial (<["aiNewsCacheTime" := "1600000000000"]>
             (<["aiNewsCache" := Engine.stringify [sample_article]]> ∅))
          (Some "").

(** The same collection stored 1000 seconds before [NOW]. *)
Definition fresh_cache : State :=
  initial (<["aiNewsCacheTime" := "1699999000000"]>
             (<["aiNewsCache" := Engine.stringify [sample_article]]> ∅))
          (Some "").

(** A stored text that is no JSON, with a fresh time. *)
Definition malformed_cache : State :=
  initial (<["aiNewsCacheTime" := "1699999000000"]>
             (<["aiNewsCache" := "{oops"]> ∅))
          (Some "").

(** A collection of 25 articles, no filter, no search term, the page at 1. *)
Definition twenty_five : State :=
  set_allNews (replicate 25 sample_article) (initial ∅ None).

(** ** Facts about the engine and the worlds *)

Ltac engine_not_http :=
  let p := fresh "p" in
  let Hp := fresh "Hp" in
  let Hprotocol := fresh "Hprotocol" in
  intros (p & Hp & Hprotocol); vm_compute in Hp;
  first [ discriminate Hp
        | injection Hp as <-; destruct Hprotocol as [Hprotocol|Hprotocol];
          discriminate Hprotocol ].

Ltac engine_http :=
  eexists; split; [vm_compute; reflexivity | first [left; reflexivity | right; reflexivity]].

Lemma script_link_not_http :
  ¬ is_http_url (browser := Engine.browser) "javascript:alert(1)".
Proof. engine_not_http. Defined.

Lemma hash_link_not_http : ¬ is_http_url (browser := Engine.browser) "#".
Proof. engine_not_http. Defined.

Lemma fallback_is_http : is_http_url (browser := Engine.browser) FALLBACK_URL.
Proof. engine_http. Defined.

Lemma example_link_is_http :
  is_http_url (browser := Engine.browser) "https://example.com/a".
Proof. engine_http. Defined.

Lemma offline_no_items feed :
  ¬ yields_items (response (World := offline) (request_url feed)).
Proof. by intros (l & Hl & _). Defined.

Lemma offline_no_null : ¬ answers_null (world := offline) RSS_FEEDS.
Proof. by intros (feed & _ & Hnull). Defined.

Lemma null_answers_null : answers_null (world := null_answers) RSS_FEEDS.
Proof.
  exists "https://venturebeat.com/category/ai/feed/".
  split; [|reflexivity]. apply list_elem_of_further, list_elem_of_here.
Defined.

Lemma one_feed_no_null items : ¬ answers_null (world := one_feed items) RSS_FEEDS.
Proof.
  intros (feed & _ & Hnull). cbn in Hnull.
  by destruct (String.eqb _ _) in Hnull.
Defined.

(** ** Examples *)

Example sanitizeURL_examples :
  let sanitize := sanitizeURL (browser := Engine.browser) in
  sanitize "https://example.com/a" = "https://example.com/a"
  ∧ sanitize "  HTTP://Example.com/a" = "  HTTP://Example.com/a"
  ∧ sanitize "javascript:alert(1)" = FALLBACK_URL
  ∧ sanitize "data:text/html,<script>alert(1)</script>" = FALLBACK_URL
  ∧ sanitize "/relative/path" = FALLBACK_URL
  ∧ sanitize "#" = FALLBACK_URL
  ∧ sanitize "http://" = FALLBACK_URL
  ∧ sanitize "" = FALLBACK_URL.
Proof. repeat split. Qed.

Example scripted_item_normalized :
  article_of (browser := Engine.browser) scripted_item "2023-11-14T22:13:20.000Z"
  = {| title := "New GPT model released";
       description := "OpenAI ships......";
       link := "javascript:alert(1)";
       pubDate := "2023-11-14T22:13:20.000Z";
       source := "";
       image := FALLBACK_URL;
       category := "llm" |}.
Proof. reflexivity. Qed.

Example run_first_visit_offline :
  let st' := state_of (fetchAINews (browser := Engine.browser) (world := offline)
                         first_visit) in
  allNews st' = [] ∧ newsGrid st' = []
  ∧ errorState_hidden st' = true ∧ newsGrid_hidden st' = false
  ∧ requests st' = request_url <$> RSS_FEEDS
  ∧ map_to_list (localStorage st')
    = [("aiNewsCacheTime", "1700000000000"); ("aiNewsCache", "[]")].
Proof. cbn zeta. rewrite fetchAINews_run. vm_compute. repeat split. Qed.

Example run_fresh_cache :
  fetchAINews (browser := Engine.browser) (world := offline) fresh_cache
  = Returned tt
      (displayNews (browser := Engine.browser)
         (set_allNews [sample_article] (begun fresh_cache))).
Proof. rewrite fetchAINews_run. reflexivity. Qed.

Example run_undated_then_future :
  pubDate <$> allNews (state_of (fetchAINews (browser := Engine.browser)
                                   (world := one_feed undated_then_future) first_visit))
  = ["garbage"; "2999-01-01T00:00:00.000Z"].
Proof. rewrite fetchAINews_run. vm_compute. reflexivity. Qed.

Example run_old_then_undated :
  pubDate <$> allNews (state_of (fetchAINews (browser := Engine.browser)
                                   (world := one_feed old_then_undated) first_visit))
  = ["2000-01-01T00:00:00.000Z"].
Proof. rewrite fetchAINews_run. vm_compute. reflexivity. Qed.

Example run_older_then_newer :
  (λ a, (title a, pubDate a)) <$>
    allNews (state_of (fetchAINews (browser := Engine.browser)
                         (world := one_feed older_then_newer) first_visit))
  = [ ("Just in", "2023-11-14T22:13:20.000Z");
      ("Same title", "2023-11-10T00:00:00.000Z") ].
Proof. rewrite fetchAINews_run. vm_compute. reflexivity. Qed.

(** With an invalid date between two valid ones the comparator is not
    consistent: it calls the first two and the last two articles equal, but
    not the first and the last. The order is then left to the engine. In this
    model of the sort nothing moves, and of the two articles with one title
    the older one is kept. *)
Example run_undated_between :
  (λ a, (title a, pubDate a)) <$>
    allNews (state_of (fetchAINews (browser := Engine.browser)
                         (world := one_feed undated_between) first_visit))
  = [ ("Same title", "2023-11-01T00:00:00.000Z"); ("Other", "garbage") ].
Proof. rewrite fetchAINews_run. vm_compute. reflexivity. Qed.

(** ** C1: no feed with usable data *)

(** C1: on a first visit with every request rejected the run ends with the
    error state hidden and the grid shown. *)
Lemma total_failure_not_surfaced :
  ¬ total_failure_is_surfaced (browser := Engine.browser) (world := offline).
Proof.
  intros Hclaim.
  destruct (Hclaim first_visit (λ feed _, offline_no_items feed) eq_refl)
    as [Herror _].
  rewrite fetchAINews_run in Herror. vm_compute in Herror. discriminate Herror.
Qed.

Lemma total_failure_shows_empty_grid_witness :
  (∃ st', fetchAINews (browser := Engine.browser) (world := offline) first_visit
          = Returned tt st'
          ∧ allNews st' = [] ∧ newsGrid st' = []
          ∧ newsGrid_hidden st' = false ∧ errorState_hidden st' = true
          ∧ loadingState_hidden st' = true)
  ∧ (∃ st', fetchAINews (browser := Engine.browser) (world := null_answers) first_visit
            = Returned tt st'
            ∧ newsGrid_hidden st' = true ∧ errorState_hidden st' = false
            ∧ loadingState_hidden st' = true).
Proof.
  split.
  - destruct (total_failure_shows_empty_grid (browser := Engine.browser)
                (world := offline) first_visit eq_refl) as [Hempty _].
    apply Hempty; [intros feed _; apply offline_no_items | apply offline_no_null].
  - destruct (total_failure_shows_empty_grid (browser := Engine.browser)
                (world := null_answers) first_visit eq_refl) as [_ Hthrown].
    apply Hthrown, null_answers_null.
Defined.

(** ** C2: the link of an article *)

(** C2: the article built from an item with the link [javascript:alert(1)]
    carries that link, not the fallback. *)
Lemma link_kept_at_construction :
  ¬ link_sanitized_at_construction (browser := Engine.browser).
Proof.
  intros [_ Hreplaced].
  specialize (Hreplaced scripted_item "" "javascript:alert(1)" eq_refl
                script_link_not_http).
  discriminate Hreplaced.
Qed.

Lemma link_sanitized_at_use_witness :
  sanitizeURL (browser := Engine.browser) "javascript:alert(1)" = FALLBACK_URL
  ∧ sanitizeURL (browser := Engine.browser) "https://example.com/a"
    = "https://example.com/a".
Proof.
  split.
  - destruct (link_sanitized_at_use (browser := Engine.browser)
                scripted_item "" first_visit) as (_ & _ & _ & Hother).
    apply Hother. exact script_link_not_http.
  - pose (item := {| item_title := None; item_description := None;
                     item_link := Some "https://example.com/a";
                     item_pubDate := None; item_author := None;
                     item_thumbnail := None; item_enclosure_link := None |}).
    destruct (link_sanitized_at_use (browser := Engine.browser)
                item "" first_visit) as (_ & _ & Hhttp & _).
    apply Hhttp. exact example_link_is_http.
Defined.

(** ** C3: what a run stores *)

(** C3: with a stored collection of one article that is too old and every
    request rejected, the run replaces the stored collection by the empty
    one. *)
Lemma cache_overwritten_on_failure :
  ¬ cache_kept_on_failure (browser := Engine.browser) (world := offline).
Proof.
  intros Hclaim.
  specialize (Hclaim stale_cache (λ feed _, offline_no_items feed) eq_refl).
  apply (f_equal (λ storage : gmap string string, storage !! "aiNewsCache")) in Hclaim.
  rewrite fetchAINews_run in Hclaim. vm_compute in Hclaim. discriminate Hclaim.
Qed.

Lemma cache_written_by_completed_run_witness :
  let run world st := state_of (fetchAINews (browser := Engine.browser)
                                  (world := world) st) in
  localStorage (run offline fresh_cache) = localStorage fresh_cache
  ∧ localStorage (run null_answers stale_cache) = localStorage stale_cache
  ∧ localStorage (run (one_feed older_then_newer) stale_cache)
    = <["aiNewsCacheTime" := "1700000000000"]>
        (<["aiNewsCache" :=
             Engine.stringify
               (final_news (browser := Engine.browser)
                  (world := one_feed older_then_newer) stale_cache)]>
           (localStorage stale_cache))
  ∧ localStorage (run offline stale_cache) !! "aiNewsCache" = Some "[]"
  ∧ localStorage (run offline stale_cache) !! "aiNewsCacheTime"
    = Some "1700000000000".
Proof.
  cbn zeta. split; [|split; [|split]].
  - destruct (cache_written_by_completed_run (browser := Engine.browser)
                (world := offline) fresh_cache) as (Hhit & _).
    apply Hhit. by eexists.
  - destruct (cache_written_by_completed_run (browser := Engine.browser)
                (world := null_answers) stale_cache) as (_ & Hnull & _).
    apply Hnull; [reflexivity | apply null_answers_null].
  - destruct (cache_written_by_completed_run (browser := Engine.browser)
                (world := one_feed older_then_newer) stale_cache)
      as (_ & _ & Hwritten & _).
    apply Hwritten; [reflexivity | apply one_feed_no_null].
  - destruct (cache_written_by_completed_run (browser := Engine.browser)
                (world := offline) stale_cache) as (_ & _ & _ & Hempty).
    apply Hempty;
      [reflexivity | apply offline_no_null | intros feed _; apply offline_no_items].
Defined.

(** ** C4: requests of a run *)

Lemma refresh_requests_witness :
  requests (state_of (fetchAINews (browser := Engine.browser) (world := offline)
                        fresh_cache)) = []
  ∧ requests (state_of (fetchAINews (browser := Engine.browser) (world := offline)
                          first_visit))
    = request_url <$> RSS_FEEDS
  ∧ requests (state_of (fetchAINews (browser := Engine.browser) (world := offline)
                          stale_cache))
    = request_url <$> RSS_FEEDS.
Proof.
  split; [|split].
  - destruct (refresh_requests (browser := Engine.browser) (world := offline)
                fresh_cache) as [Hhit _].
    apply (Hhit (Engine.stringify [sample_article]) "1699999000000"
             1699999000000 [sample_article]);
      [reflexivity | discriminate | reflexivity | reflexivity
      | reflexivity | vm_compute; reflexivity].
  - destruct (refresh_requests (browser := Engine.browser) (world := offline)
                first_visit) as [_ Hmiss].
    apply Hmiss. left. reflexivity.
  - destruct (refresh_requests (browser := Engine.browser) (world := offline)
                stale_cache) as [_ Hmiss].
    apply Hmiss. right. right. exists "1600000000000", 1600000000000.
    split; [reflexivity|]. split; [reflexivity|]. by vm_compute.
Defined.

(** ** C6 and C7: order and duplicates *)

(** C7: the item with the date [garbage] stays in front of the item dated
    2999, though read as the current time, 2023, it is the older one. *)
Lemma invalid_date_not_sorted_as_now :
  ¬ sorted_with_invalid_as_now (browser := Engine.browser)
      (world := one_feed undated_then_future).
Proof.
  intros Hclaim.
  specialize (Hclaim first_visit eq_refl (one_feed_no_null _) 0%nat).
  rewrite fetchAINews_run in Hclaim.
  specialize (Hclaim _ _ eq_refl eq_refl).
  vm_compute in Hclaim. by apply Hclaim.
Qed.

(** C6: of the two items with one title the one of the year 2000 is kept
    and the one with the date [garbage] is dropped; the kept one is not the
    later one, neither with the invalid date read as the current time nor with
    the dates compared as they are. *)
Lemma kept_duplicate_not_latest :
  ¬ latest_duplicate_kept (browser := Engine.browser)
      (world := one_feed old_then_undated)
      (later_with_invalid_as_now (browser := Engine.browser)
         (world := one_feed old_then_undated))
  ∧ ¬ latest_duplicate_kept (browser := Engine.browser)
        (world := one_feed old_then_undated)
        (later_with_valid_dates (browser := Engine.browser)).
Proof.
  pose (old := article_of (browser := Engine.browser)
                 (item_dated "Same title" (Some "2000-01-01T00:00:00.000Z"))
                 "2000-01-01T00:00:00.000Z").
  pose (undated := article_of (browser := Engine.browser)
                     (item_dated "Same title" (Some "garbage")) "garbage").
  assert (old ∈ gathered (browser := Engine.browser)
                  (world := one_feed old_then_undated) first_visit) as Hold.
  { vm_compute. apply list_elem_of_here. }
  assert (undated ∈ gathered (browser := Engine.browser)
                      (world := one_feed old_then_undated) first_visit) as Hundated.
  { vm_compute. apply list_elem_of_further, list_elem_of_here. }
  split; intros Hclaim.
  - destruct (Hclaim first_visit old undated eq_refl (one_feed_no_null _)
                Hold Hundated eq_refl) as (c & Hc & _ & Hlater).
    rewrite fetchAINews_run in Hc. vm_compute in Hc. injection Hc as <-.
    vm_compute in Hlater. by apply Hlater.
  - destruct (Hclaim first_visit old undated eq_refl (one_feed_no_null _)
                Hold Hundated eq_refl) as (c & Hc & _ & Hlater).
    destruct Hlater as (tc & tu & _ & Hu & _).
    vm_compute in Hu. discriminate Hu.
Qed.

Lemma final_collection_sorted_witness :
  time_of (browser := Engine.browser)
    (article_of (browser := Engine.browser) (item_dated "Just in" None)
       (date_of (browser := Engine.browser) (world := offline)
          (item_dated "Just in" None) 1))
  = Some NOW
  ∧ Some (pubDate (article_of (browser := Engine.browser)
                     (item_dated "Future" (Some "2999-01-01T00:00:00.000Z"))
                     (date_of (browser := Engine.browser) (world := offline)
                        (item_dated "Future" (Some "2999-01-01T00:00:00.000Z")) 1)))
    = Some "2999-01-01T00:00:00.000Z"
  ∧ not_older (browser := Engine.browser)
      (article_of (browser := Engine.browser)
         (item_dated "Just in" None) "2023-11-14T22:13:20.000Z")
      (article_of (browser := Engine.browser)
         (item_dated "Same title" (Some "2023-11-10T00:00:00.000Z"))
         "2023-11-10T00:00:00.000Z").
Proof.
  split; [|split].
  - destruct (final_collection_sorted (browser := Engine.browser)
                (world := offline) first_visit) as (Habsent & _ & _).
    destruct (Habsent (item_dated "Just in" None) 1%nat eq_refl) as [_ Htime].
    apply Htime. vm_compute. reflexivity.
  - destruct (final_collection_sorted (browser := Engine.browser)
                (world := offline) first_visit) as (_ & Hpresent & _).
    apply Hpresent. reflexivity.
  - destruct (final_collection_sorted (browser := Engine.browser)
                (world := one_feed older_then_newer) first_visit)
      as (_ & _ & Hsorted).
    apply (Hsorted eq_refl (one_feed_no_null _)) with (i := 0%nat).
    + compute_done.
    + rewrite fetchAINews_run. vm_compute. reflexivity.
    + rewrite fetchAINews_run. vm_compute. reflexivity.
Defined.

Lemma first_duplicate_kept_witness :
  ∃ c, filter (λ x, title x = "Same title")
         (allNews (state_of (fetchAINews (browser := Engine.browser)
                               (world := one_feed older_then_newer) first_visit)))
       = [c]
       ∧ pubDate c = "2023-11-10T00:00:00.000Z"
       ∧ not_older (browser := Engine.browser) c
           (article_of (browser := Engine.browser)
              (item_dated "Same title" (Some "2023-11-01T00:00:00.000Z"))
              "2023-11-01T00:00:00.000Z").
Proof.
  pose (older := article_of (browser := Engine.browser)
                   (item_dated "Same title" (Some "2023-11-01T00:00:00.000Z"))
                   "2023-11-01T00:00:00.000Z").
  pose (newer := article_of (browser := Engine.browser)
                   (item_dated "Same title" (Some "2023-11-10T00:00:00.000Z"))
                   "2023-11-10T00:00:00.000Z").
  destruct (first_duplicate_kept (browser := Engine.browser)
              (world := one_feed older_then_newer) first_visit older newer)
    as (c & Hone & Hhead & Hlatest).
  - reflexivity.
  - apply one_feed_no_null.
  - vm_compute. apply list_elem_of_here.
  - vm_compute. apply list_elem_of_further, list_elem_of_here.
  - reflexivity.
  - exists c. split; [exact Hone|]. split.
    + vm_compute in Hhead. by injection Hhead as <-.
    + apply Hlatest. compute_done.
Defined.

(** ** C8: pages *)

Lemma pagination_first_pages_witness :
  let page1 := displayNews (browser := Engine.browser) twenty_five in
  let page2 := loadMoreNews (browser := Engine.browser) page1 in
  let page3 := loadMoreNews (browser := Engine.browser) page2 in
  let page4 := loadMoreNews (browser := Engine.browser) page3 in
  length (getVisibleArticles page2)
  = ((2 * NEWS_PER_PAGE) `min` length (filtered twenty_five))%nat
  ∧ length (getVisibleArticles page1) = 9%nat
  ∧ length (getVisibleArticles page2) = 18%nat
  ∧ length (getVisibleArticles page3) = 25%nat
  ∧ length (getVisibleArticles page4) = 25%nat.
Proof.
  destruct (pagination_first_pages (browser := Engine.browser) twenty_five)
    as (_ & Hsecond & Hpages).
  split; [apply Hsecond; reflexivity | apply Hpages; reflexivity].
Defined.

(** ** C9: a stored text that does not parse *)

Lemma malformed_cache_refetched_witness :
  ∃ st' st'',
    fetchAINews (browser := Engine.browser) (world := offline) malformed_cache
    = Returned tt st'
    ∧ fetchAINews (browser := Engine.browser) (world := offline)
        (set_localStorage (delete "aiNewsCache" (localStorage malformed_cache))
           malformed_cache)
      = Returned tt st''
    ∧ requests st' = requests malformed_cache ++ (request_url <$> RSS_FEEDS)
    ∧ set_localStorage (localStorage st') st'' = st'
    ∧ (¬ answers_null (world := offline) RSS_FEEDS → st'' = st').
Proof.
  apply (malformed_cache_refetched (browser := Engine.browser) (world := offline)
           malformed_cache "{oops"); reflexivity.
Defined.

(** ** C10: the one fallback URL *)

Lemma sanitizeURL_single_fallback_witness :
  let sanitize := sanitizeURL (browser := Engine.browser) in
  let article := article_of (browser := Engine.browser) scripted_item "" in
  let broken_image :=
    {| title := "t"; description := "d"; link := "https://example.com/a";
       pubDate := ""; source := "s"; image := "javascript:alert(1)";
       category := "ml" |} in
  sanitize "https://example.com/a" = "https://example.com/a"
  ∧ sanitize "#" = FALLBACK_URL
  ∧ (sanitize "https://example.com/a" = "https://example.com/a"
     ↔ is_http_url (browser := Engine.browser) "https://example.com/a")
  ∧ image article = FALLBACK_URL
  ∧ card_image_src (card_of (browser := Engine.browser) broken_image) = FALLBACK_URL
  ∧ modalImage_src <$>
      articleModal (openArticleModal (browser := Engine.browser) broken_image first_visit)
    = Some FALLBACK_URL
  ∧ modalLink_href <$>
      articleModal (openArticleModal (browser := Engine.browser) article first_visit)
    = Some FALLBACK_URL.
Proof.
  destruct (sanitizeURL_single_fallback (browser := Engine.browser))
    as (Hhttp & Hother & Hiff & Hdefault & Hcard & Himage & Hlink).
  cbn zeta.
  refine (conj _ (conj _ (conj _ (conj _ (conj _ (conj _ _)))))).
  - apply Hhttp, example_link_is_http.
  - apply Hother, hash_link_not_http.
  - apply Hiff, fallback_is_http.
  - by apply Hdefault.
  - apply Hcard, script_link_not_http.
  - apply Himage, script_link_not_http.
  - apply Hlink, script_link_not_http.
Defined.

(* ================================================================== *)
(** * The remaining functions of the module *)
(* ================================================================== *)

(** ** sanitizeHTML

    [temp.textContent = str; return temp.innerHTML]: the serialization of a
    [div] whose only child is a text node escapes the ampersand, the
    no-break space U+00A0 and the two angle brackets, and nothing else. *)

Definition escape_char (c : ascii) : string :=
  let n := N_of_ascii c in
  if (n =? 38)%N then "&amp;"
  else if (n =? 160)%N then "&nbsp;"
  else if (n =? 60)%N then "&lt;"
  else if (n =? 62)%N then "&gt;"
  else String c "".

Fixpoint sanitizeHTML (str : string) : string :=
  match str with
  | EmptyString => EmptyString
  | String c rest => escape_char c +:+ sanitizeHTML rest
  end.

(** The text a browser reads back from escaped text: the four entities
    become their characters again. [skip] counts the characters of an entity
    that are still to be passed over. *)
Fixpoint unescapeHTML (skip : nat) (s : string) : string :=
  match s with
  | EmptyString => EmptyString
  | String c rest =>
      match skip with
      | S k => unescapeHTML k rest
      | O =>
          if JS.startsWith s "&amp;" then String "&" (unescapeHTML 4 rest)
          else if JS.startsWith s "&nbsp;" then String (ascii_of_N 160) (unescapeHTML 5 rest)
          else if JS.startsWith s "&lt;" then String "<" (unescapeHTML 3 rest)
          else if JS.startsWith s "&gt;" then String ">" (unescapeHTML 3 rest)
          else String c (unescapeHTML 0 rest)
      end
  end.

(** How often a character occurs in a string. *)
Fixpoint occurrences (c : ascii) (s : string) : nat :=
  match s with
  | EmptyString => 0
  | String a rest => (if Ascii.eqb a c then 1 else 0) + occurrences c rest
  end.

(** ** getCategoryName

    [names[category] || 'AI News']. The lookup in the object literal also
    finds what the literal inherits from [Object.prototype]: for such a key
    the function returns the inherited member, which is no string. *)

Inductive CategoryName :=
  | Label (name : string)
  | Inherited (key : string).

Definition Object_prototype_keys : list string :=
  [ "constructor"; "hasOwnProperty"; "isPrototypeOf"; "propertyIsEnumerable";
    "toLocaleString"; "toString"; "valueOf"; "__proto__";
    "__defineGetter__"; "__defineSetter__"; "__lookupGetter__"; "__lookupSetter__" ].

Definition getCategoryName (category : string) : CategoryName :=
  if String.eqb category "llm" then Label "LLMs"
  else if String.eqb category "ml" then Label "Machine Learning"
  else if String.eqb category "vision" then Label "Computer Vision"
  else if String.eqb category "ethics" then Label "AI Ethics"
  else if existsb (String.eqb category) Object_prototype_keys then Inherited category
  else Label "AI News".

(** ** formatDate

    The card template and the modal call it for the label of an article;
    both are outside the embedded grid and modal, so the function is embedded
    on its own, and a call of it takes the next reading of the clock. *)

(** [date.toLocaleDateString('en-US', { month: 'short', day: 'numeric',
    year: 'numeric' })] of a time value; [None] is an invalid date. The
    result depends on the time zone of the browser. *)
Class Locale := {
  toLocaleDateString : option Z → string
}.

Definition MS_PER_DAY : Z := 1000 * 60 * 60 * 24.

Section FormatDate.
Context {browser : Browser} {world : World} {locale : Locale}.
Local Open Scope js_scope.

(** [Math.floor(diff / (1000 * 60 * 60 * 24))]. The quotient of the two
    numbers, rounded as the division rounds it, has the floor of the exact
    quotient as long as the difference is below 10^8 days: half a unit in the
    last place of the quotient is then less than the distance [1 / MS_PER_DAY]
    that separates a quotient which is no integer from the integers. Every
    valid date is within that distance of a clock of this era. *)
Definition days_between (now date : Z) : Z := (now - date) / MS_PER_DAY.

Definition formatDate (dateString : string) : M string :=
  let date := Date_parse dateString in
  let* now := new_Date in
  ret (match date with
       | Some t =>
           let days := days_between now t in
           if days =? 0 then "Today"
           else if days =? 1 then "Yesterday"
           else if days <? 7 then JS.toString days +:+ " days ago"
           else toLocaleDateString date
       | None => toLocaleDateString date
       end).

End FormatDate.

(** ** The preview paragraph of the modal *)

(** [s.substring(n)]: the string without its first [n] code units. *)
Fixpoint substring_from (n : nat) (s : string) : string :=
  match n, s with
  | O, _ => s
  | S _, EmptyString => EmptyString
  | S k, String _ rest => substring_from k rest
  end.

(** [s.replace(pattern, replacement)] with a string pattern and a
    replacement without a dollar sign: the first occurrence is replaced. *)
Fixpoint replace_first (pattern replacement s : string) : string :=
  if JS.startsWith s pattern
  then replacement +:+ substring_from (String.length pattern) s
  else match s with
       | EmptyString => EmptyString
       | String c rest => String c (replace_first pattern replacement rest)
       end.

(** The text of the paragraph that [openArticleModal] puts into
    [modalContentText]. *)
Definition modalContentText_of (article : Article) : string :=
  replace_first "..." "" (description article)
  +:+ " This is a preview from " +:+ source article
  +:+ ". Click below to read the full article on their website.".

(* ------------------------------------------------------------------ *)
(** ** Properties of sanitizeHTML *)

Lemma unescapeHTML_escape_char c rest :
  unescapeHTML 0 (escape_char c +:+ rest) = String c (unescapeHTML 0 rest).
Proof. destruct c as [[] [] [] [] [] [] [] []]; reflexivity. Qed.

Lemma includes_lt_escape_char c rest :
  JS.includes (escape_char c +:+ rest) "<" = JS.includes rest "<".
Proof. destruct c as [[] [] [] [] [] [] [] []]; reflexivity. Qed.

Lemma includes_gt_escape_char c rest :
  JS.includes (escape_char c +:+ rest) ">" = JS.includes rest ">".
Proof. destruct c as [[] [] [] [] [] [] [] []]; reflexivity. Qed.

Lemma occurrences_quote_escape_char c rest :
  occurrences (ascii_of_N 34) (escape_char c +:+ rest)
  = occurrences (ascii_of_N 34) (String c rest)
  ∧ occurrences (ascii_of_N 39) (escape_char c +:+ rest)
    = occurrences (ascii_of_N 39) (String c rest).
Proof. destruct c as [[] [] [] [] [] [] [] []]; split; reflexivity. Qed.

(** X1: the escaped text has no angle bracket, and reading the entities back
    gives the text that was escaped. *)
Theorem sanitizeHTML_escapes_markup str :
  JS.includes (sanitizeHTML str) "<" = false
  ∧ JS.includes (sanitizeHTML str) ">" = false
  ∧ unescapeHTML 0 (sanitizeHTML str) = str.
Proof.
  induction str as [|c rest (IHlt & IHgt & IHback)]; [done|].
  cbn [sanitizeHTML].
  by rewrite includes_lt_escape_char, includes_gt_escape_char,
    unescapeHTML_escape_char, IHlt, IHgt, IHback.
Qed.

(** X2: the escaped text has as many double quotes and as many single quotes as
    the text: quotes are not escaped. *)
Theorem sanitizeHTML_keeps_quotes str :
  occurrences (ascii_of_N 34) (sanitizeHTML str) = occurrences (ascii_of_N 34) str
  ∧ occurrences (ascii_of_N 39) (sanitizeHTML str) = occurrences (ascii_of_N 39) str.
Proof.
  induction str as [|c rest [IHdouble IHsingle]]; [done|].
  cbn [sanitizeHTML].
  destruct (occurrences_quote_escape_char c (sanitizeHTML rest)) as [-> ->].
  cbn [occurrences]. by rewrite IHdouble, IHsingle.
Qed.

(* ------------------------------------------------------------------ *)
(** ** Properties of getCategoryName *)

(** X3: the category that [categorizeArticle] assigns always has a label of its
    own: the fallback [AI News] and the inherited members are never shown
    for it. *)
Theorem category_always_labelled title description :
  getCategoryName (categorizeArticle title description)
  ∈ [ Label "LLMs"; Label "Machine Learning"; Label "Computer Vision";
      Label "AI Ethics" ].
Proof.
  pose proof (categorizeArticle_range title description) as Hrange.
  repeat (apply elem_of_cons in Hrange as [->|Hrange]);
    [cbn; set_solver .. | by apply elem_of_nil in Hrange].
Qed.

(* ------------------------------------------------------------------ *)
(** ** Numbers written and read back *)

(** The number that the digits of [d] stand for after the digits read
    before them, which stand for [acc]. *)
Fixpoint uint_value (d : Decimal.uint) (acc : Z) : Z :=
  match d with
  | Nil => acc
  | D0 l => uint_value l (acc * 10 + 0)
  | D1 l => uint_value l (acc * 10 + 1)
  | D2 l => uint_value l (acc * 10 + 2)
  | D3 l => uint_value l (acc * 10 + 3)
  | D4 l => uint_value l (acc * 10 + 4)
  | D5 l => uint_value l (acc * 10 + 5)
  | D6 l => uint_value l (acc * 10 + 6)
  | D7 l => uint_value l (acc * 10 + 7)
  | D8 l => uint_value l (acc * 10 + 8)
  | D9 l => uint_value l (acc * 10 + 9)
  end.

Lemma leading_digits_uint d acc :
  JS.leading_digits 10 (Some acc) (NilEmpty.string_of_uint d) = Some (uint_value d acc).
Proof.
  revert acc. induction d; intros acc; cbn [NilEmpty.string_of_uint uint_value]; [done|..];
  (etrans; [|apply IHd]); reflexivity.
Qed.

Lemma uint_value_of_uint_acc d p : uint_value d (Zpos p) = Zpos (Pos.of_uint_acc d p).
Proof.
  revert p. induction d; intros p; cbn [uint_value Pos.of_uint_acc]; [done|..];
    rewrite <- IHd; f_equal; lia.
Qed.

Lemma uint_value_of_uint d : uint_value d 0 = Z.of_uint d.
Proof.
  unfold Z.of_uint.
  induction d; cbn [uint_value Pos.of_uint]; [done| |..].
  - exact IHd.
  - apply (uint_value_of_uint_acc d 1).
  - apply (uint_value_of_uint_acc d 2).
  - apply (uint_value_of_uint_acc d 3).
  - apply (uint_value_of_uint_acc d 4).
  - apply (uint_value_of_uint_acc d 5).
  - apply (uint_value_of_uint_acc d 6).
  - apply (uint_value_of_uint_acc d 7).
  - apply (uint_value_of_uint_acc d 8).
  - apply (uint_value_of_uint_acc d 9).
Qed.

Lemma parseInt_uint d :
  JS.leading_digits 10 None (NilZero.string_of_uint d) = Some (Z.of_uint d).
Proof.
  rewrite <- uint_value_of_uint.
  destruct d; [reflexivity|..]; exact (leading_digits_uint d _).
Qed.

Lemma fmap_mul_1 (o : option Z) : Z.mul 1 <$> o = o.
Proof. destruct o as [z|]; [|done]. cbn. f_equal. by destruct z. Qed.

Lemma fmap_mul_opp (o : option Z) : Z.mul (-1) <$> o = Z.opp <$> o.
Proof. by destruct o as [[| |]|]. Qed.

Lemma parseInt_string_of_uint d :
  JS.parseInt (NilZero.string_of_uint d) = Some (Z.of_uint d)
  ∧ JS.parseInt (String "-" (NilZero.string_of_uint d)) = Some (- Z.of_uint d).
Proof.
  rewrite <- (fmap_mul_1 (Some (Z.of_uint d))).
  change (Some (- Z.of_uint d)) with (Z.opp <$> Some (Z.of_uint d)).
  rewrite <- fmap_mul_opp, <- parseInt_uint.
  destruct d as [|d|d|d|d|d|d|d|d|d|d]; try (split; reflexivity).
  destruct d; split; reflexivity.
Qed.

(** [parseInt] reads back every integer that [toString] has written. *)
Lemma parseInt_toString n : JS.parseInt (JS.toString n) = Some n.
Proof.
  unfold JS.toString. rewrite <- (DecimalZ.of_to n) at 2.
  destruct (Z.to_int n) as [d|d]; cbn [NilZero.string_of_int Z.of_int];
    apply parseInt_string_of_uint.
Qed.

Lemma toString_negative n : n < 0 → ∃ digits, JS.toString n = String "-" digits.
Proof. destruct n as [|p|p]; [lia | lia |]. intros _. by eexists. Qed.

(* ------------------------------------------------------------------ *)
(** ** Properties of formatDate *)

Lemma div_between x k : k * MS_PER_DAY ≤ x < (k + 1) * MS_PER_DAY → x / MS_PER_DAY = k.
Proof.
  intros Hx. symmetry. apply (Z.div_unique x MS_PER_DAY k (x - k * MS_PER_DAY));
    unfold MS_PER_DAY in *; lia.
Qed.

Section FormatDateProperties.
Context {browser : Browser} {world : World} {locale : Locale}.

(** X4: the label of a date. A valid date less than a day before the reading
    of the clock is [Today], one to two days before it [Yesterday], two to
    seven days before it the count of whole days with [days ago], seven days
    or more before it the date as the locale writes it; an invalid date is
    what the locale makes of an invalid date. Each call reads the clock
    once. *)
Theorem formatDate_labels dateString st :
  ∃ label,
    formatDate dateString st
    = Returned label (set_clock_reads (S (clock_reads st)) st)
    ∧ (∀ t, Date_parse dateString = Some t →
         (0 ≤ now_of st - t < MS_PER_DAY → label = "Today")
         ∧ (MS_PER_DAY ≤ now_of st - t < 2 * MS_PER_DAY → label = "Yesterday")
         ∧ (2 * MS_PER_DAY ≤ now_of st - t < 7 * MS_PER_DAY →
            2 ≤ days_between (now_of st) t ≤ 6
            ∧ label = JS.toString (days_between (now_of st) t) +:+ " days ago")
         ∧ (7 * MS_PER_DAY ≤ now_of st - t → label = toLocaleDateString (Some t)))
    ∧ (Date_parse dateString = None → label = toLocaleDateString None).
Proof.
  unfold formatDate, bind, new_Date, ret. fold (now_of st).
  eexists. split; [reflexivity|]. split.
  - intros t ->. unfold days_between. repeat split.
    + intros Hx. by rewrite (div_between _ 0) by lia.
    + intros Hx. by rewrite (div_between _ 1) by lia.
    + apply Z.div_le_lower_bound; unfold MS_PER_DAY in *; lia.
    + assert ((now_of st - t) / MS_PER_DAY < 7); [|lia].
      apply Z.div_lt_upper_bound; unfold MS_PER_DAY in *; lia.
    + assert (2 ≤ (now_of st - t) / MS_PER_DAY) as Hlow
        by (apply Z.div_le_lower_bound; unfold MS_PER_DAY in *; lia).
      assert ((now_of st - t) / MS_PER_DAY < 7) as Hhigh
        by (apply Z.div_lt_upper_bound; unfold MS_PER_DAY in *; lia).
      destruct (Z.eqb_spec ((now_of st - t) / MS_PER_DAY) 0); [lia|].
      destruct (Z.eqb_spec ((now_of st - t) / MS_PER_DAY) 1); [lia|].
      destruct (Z.ltb_spec ((now_of st - t) / MS_PER_DAY) 7); [done|lia].
    + intros Hx.
      assert (7 ≤ (now_of st - t) / MS_PER_DAY) as Hlow
        by (apply Z.div_le_lower_bound; unfold MS_PER_DAY in *; lia).
      destruct (Z.eqb_spec ((now_of st - t) / MS_PER_DAY) 0); [lia|].
      destruct (Z.eqb_spec ((now_of st - t) / MS_PER_DAY) 1); [lia|].
      destruct (Z.ltb_spec ((now_of st - t) / MS_PER_DAY) 7); [lia|done].
  - by intros ->.
Qed.

(** X5: a valid date after the reading of the clock is never [Today]: its label
    is a negative count of days with [days ago]. *)
Theorem formatDate_future dateString t st :
  Date_parse dateString = Some t → now_of st < t →
  ∃ digits,
    formatDate dateString st
    = Returned (String "-" digits +:+ " days ago")
        (set_clock_reads (S (clock_reads st)) st)
    ∧ JS.toString (days_between (now_of st) t) = String "-" digits
    ∧ days_between (now_of st) t ≤ -1.
Proof.
  intros Hdate Hfuture.
  assert (days_between (now_of st) t < 0) as Hneg.
  { unfold days_between. apply Z.div_lt_upper_bound; unfold MS_PER_DAY; lia. }
  destruct (toString_negative _ Hneg) as [digits Hdigits].
  exists digits. split; [|split; [done|lia]].
  unfold formatDate, bind, new_Date, ret. fold (now_of st). rewrite Hdate.
  destruct (Z.eqb_spec (days_between (now_of st) t) 0); [lia|].
  destruct (Z.eqb_spec (days_between (now_of st) t) 1); [lia|].
  destruct (Z.ltb_spec (days_between (now_of st) t) 7); [|lia].
  by rewrite Hdigits.
Qed.

(** X6: an item that came without a date shows as [Today] for the day that
    follows the reading of the clock at which it was built, provided the
    browser reads its own ISO string back. *)
Theorem undated_item_shown_as_today item reads st :
  JS.truthy (item_pubDate item) = false →
  Date_parse (Date_toISOString (clock reads)) = Some (clock reads) →
  0 ≤ now_of st - clock reads < MS_PER_DAY →
  formatDate (pubDate (article_of item (date_of item reads))) st
  = Returned "Today" (set_clock_reads (S (clock_reads st)) st).
Proof.
  intros Habsent Hback Hday.
  unfold formatDate, bind, new_Date, ret, date_of. fold (now_of st).
  cbn [pubDate article_of]. rewrite Habsent, Hback.
  unfold days_between. by rewrite (div_between _ 0) by lia.
Qed.

End FormatDateProperties.

(* ------------------------------------------------------------------ *)
(** ** Properties of the preview paragraph *)

Lemma string_app_assoc (a b c : string) : (a +:+ b) +:+ c = a +:+ (b +:+ c).
Proof. induction a as [|x a IH]; [done|]. by rewrite !string_app_cons, IH. Qed.

Lemma string_app_nil_r (a : string) : a +:+ "" = a.
Proof. induction a as [|x a IH]; [done|]. by rewrite string_app_cons, IH. Qed.

Lemma includes_false_cons c s k :
  JS.includes (String c s) k = false →
  JS.startsWith (String c s) k = false ∧ JS.includes s k = false.
Proof. cbn [JS.includes]. by intros [? ?]%orb_false_iff. Qed.

Lemma replace_first_absent pattern replacement s :
  JS.includes s pattern = false → replace_first pattern replacement s = s.
Proof.
  induction s as [|c s IH]; intros Hnone.
  - cbn in *. rewrite orb_false_r in Hnone. by rewrite Hnone.
  - apply includes_false_cons in Hnone as [Hstart Hrest].
    cbn [replace_first]. rewrite Hstart. by rewrite IH.
Qed.

Lemma substring_from_app n s u :
  (n ≤ String.length s)%nat →
  substring_from n (s +:+ u) = substring_from n s +:+ u.
Proof.
  revert s. induction n as [|n IH]; intros [|c s] Hn; cbn in Hn; try done; try lia.
  rewrite string_app_cons. cbn [substring_from]. apply IH. lia.
Qed.

Lemma startsWith_length s p :
  JS.startsWith s p = true → (String.length p ≤ String.length s)%nat.
Proof.
  revert s. induction p as [|a p IH]; intros [|b s]; cbn; try done; try lia.
  destruct (Ascii.eqb a b); [|done]. intros H%IH. lia.
Qed.

Lemma includes_length s p :
  JS.includes s p = true → (String.length p ≤ String.length s)%nat.
Proof.
  induction s as [|c s IH]; cbn [JS.includes].
  - rewrite orb_false_r. apply startsWith_length.
  - intros [H|H]%orb_true_iff; [by apply startsWith_length|].
    apply IH in H. cbn. lia.
Qed.

Lemma startsWith_app_inv s u p :
  JS.startsWith (s +:+ u) p = true → (String.length p ≤ String.length s)%nat →
  JS.startsWith s p = true.
Proof.
  revert s. induction p as [|a p IH]; intros [|b s]; cbn [String.length]; try done; try lia.
  rewrite string_app_cons. cbn [JS.startsWith].
  destruct (Ascii.eqb a b); [|done]. intros H Hlen. apply IH; [done|lia].
Qed.

Lemma replace_first_present pattern replacement s u :
  JS.includes s pattern = true →
  replace_first pattern replacement (s +:+ u)
  = replace_first pattern replacement s +:+ u.
Proof.
  induction s as [|c s IH]; intros Hin.
  - cbn [JS.includes] in Hin. rewrite orb_false_r in Hin.
    destruct pattern; [|done]. rewrite string_app_nil_l.
    cbn [replace_first JS.startsWith String.length substring_from].
    rewrite string_app_nil_r. by destruct u.
  - destruct (JS.startsWith (String c s) pattern) eqn:Hstart.
    + pose proof (startsWith_app_r _ u _ Hstart) as Happ.
      rewrite string_app_cons in *. cbn [replace_first]. rewrite Happ, Hstart.
      rewrite <- string_app_cons, substring_from_app by (by apply startsWith_length).
      by rewrite string_app_assoc.
    + cbn [JS.includes] in Hin. rewrite Hstart in Hin. cbn in Hin.
      destruct (JS.startsWith (String c s +:+ u) pattern) eqn:Happ.
      { apply startsWith_app_inv in Happ; [congruence|].
        apply includes_length in Hin. cbn. lia. }
      rewrite string_app_cons in *. cbn [replace_first]. rewrite Happ, Hstart.
      by rewrite IH, string_app_cons.
Qed.

Lemma replace_first_ellipsis_appended t :
  JS.includes t "..." = false → replace_first "..." "" (t +:+ "...") = t.
Proof.
  induction t as [|c t IH]; intros Hnone; [done|].
  apply includes_false_cons in Hnone as [Hstart Hrest].
  rewrite string_app_cons. cbn [replace_first].
  destruct (JS.startsWith (String c (t +:+ "...")) "...") eqn:Happ.
  - destruct t as [|d [|e t]].
    + cbn [JS.startsWith String.append] in Happ.
      destruct (Ascii.eqb_spec "." c) as [<-|]; [reflexivity|done].
    + rewrite !string_app_cons in Happ. cbn [JS.startsWith] in Happ.
      destruct (Ascii.eqb_spec "." c) as [<-|]; [|done].
      destruct (Ascii.eqb_spec "." d) as [<-|]; [reflexivity|done].
    + exfalso. rewrite !string_app_cons in Happ. cbn [JS.startsWith] in Happ, Hstart.
      destruct (Ascii.eqb "." c); [|done].
      destruct (Ascii.eqb "." d); [|done].
      destruct (Ascii.eqb "." e); done.
  - by rewrite IH.
Qed.

Section Preview.
Context {browser : Browser}.

(** X7: the preview shows the text of the description without the ellipsis
    that the normalization appended, when the text has no ellipsis of its
    own; when it has one, the first of its own is removed and the appended
    one stays. The notice of a missing description is shown as it is. *)
Theorem modal_preview_text item date :
  let article := article_of item date in
  let notice :=
    " This is a preview from " +:+ source article
    +:+ ". Click below to read the full article on their website." in
  (JS.truthy (item_description item) = false →
   modalContentText_of article = "No description available" +:+ notice)
  ∧ (∀ d, item_description item = Some d → d ≠ "" →
       let text := JS.substring0 DESCRIPTION_MAX_LENGTH (stripHTML d) in
       (JS.includes text "..." = false →
        modalContentText_of article = text +:+ notice)
       ∧ (JS.includes text "..." = true →
          modalContentText_of article
          = (replace_first "..." "" text +:+ "...") +:+ notice)).
Proof.
  cbn zeta. unfold modalContentText_of. split.
  - intros Habsent. cbn [description article_of].
    destruct (item_description item) as [d|]; [|reflexivity].
    cbn [JS.truthy] in *. apply negb_false_iff in Habsent. by rewrite Habsent.
  - intros d Hd Hne. cbn [description article_of]. rewrite Hd.
    rewrite (truthy_nonempty d Hne). split; intros Htext.
    + by rewrite replace_first_ellipsis_appended.
    + by rewrite replace_first_present.
Qed.

End Preview.

(* ------------------------------------------------------------------ *)
(** ** Properties of the view *)

Lemma startsWith_split s k :
  JS.startsWith s k = true ↔ ∃ post, s = k +:+ post.
Proof.
  revert s. induction k as [|a k IH]; intros s.
  - split; [by exists s | done].
  - destruct s as [|b s]; cbn [JS.startsWith].
    + split; [done | by intros [post ?]].
    + destruct (Ascii.eqb_spec a b) as [<-|Hne].
      * rewrite IH. split; intros [post Hpost]; exists post.
        -- by rewrite string_app_cons, <- Hpost.
        -- rewrite string_app_cons in Hpost. by injection Hpost.
      * split; [done|]. intros [post Hpost].
        rewrite string_app_cons in Hpost. by injection Hpost.
Qed.

Lemma includes_split s k :
  JS.includes s k = true ↔ ∃ pre post, s = pre +:+ k +:+ post.
Proof.
  induction s as [|c s IH]; cbn [JS.includes].
  - rewrite orb_false_r, startsWith_split. split.
    + intros [post ->]. by exists "", post.
    + intros (pre & post & Hs). destruct pre; [by exists post|done].
  - rewrite orb_true_iff, startsWith_split, IH. split.
    + intros [[post ->]|(pre & post & ->)]; [by exists "", post|].
      by exists (String c pre), post.
    + intros (pre & post & Hs). destruct pre as [|d pre].
      * left. by exists post.
      * right. rewrite string_app_cons in Hs. injection Hs as _ ->. by exists pre, post.
Qed.

Lemma toLowerCase_app_inv text p q :
  JS.toLowerCase text = p +:+ q →
  ∃ a b, text = a +:+ b ∧ JS.toLowerCase a = p ∧ JS.toLowerCase b = q.
Proof.
  revert text. induction p as [|x p IH]; intros text Htext.
  - by exists "", text.
  - destruct text as [|c text]; [done|].
    rewrite string_app_cons in Htext. cbn [JS.toLowerCase] in Htext.
    injection Htext as Hc Htext.
    destruct (IH _ Htext) as (a & b & -> & <- & <-).
    exists (String c a), b. by rewrite <- Hc.
Qed.

(** Two strings are the same but for the case of their letters. *)
Definition same_ignoring_case (u k : string) : Prop :=
  JS.toLowerCase u = JS.toLowerCase k.

(** [k] occurs somewhere in [text], the case of letters ignored. *)
Definition occurs_ignoring_case (text k : string) : Prop :=
  ∃ pre u post, text = pre +:+ u +:+ post ∧ same_ignoring_case u k.

Lemma includes_ignoring_case text k :
  JS.includes (JS.toLowerCase text) (JS.toLowerCase k) = true
  ↔ occurs_ignoring_case text k.
Proof.
  rewrite includes_split. split.
  - intros (p & q & Hsplit).
    apply toLowerCase_app_inv in Hsplit as (pre & rest & -> & <- & Hrest).
    apply toLowerCase_app_inv in Hrest as (u & post & -> & Hu & <-).
    by exists pre, u, post.
  - intros (pre & u & post & -> & Hu).
    exists (JS.toLowerCase pre), (JS.toLowerCase post).
    by rewrite !toLowerCase_app, Hu.
Qed.

Lemma toLowerCase_empty s : JS.toLowerCase s = "" ↔ s = "".
Proof. by destruct s. Qed.

Section View.
Context {browser : Browser}.

(** X8: what [displayNews] puts into [displayedNews]: exactly the articles of
    [allNews] that have the category of the filter, unless the filter is
    [all], and in whose title or description the search term occurs with the
    case of letters ignored, unless the search box is missing or empty; in
    the order of [allNews]. The grid shows a prefix of them. *)
Theorem displayed_articles st a :
  let st' := displayNews st in
  (a ∈ displayedNews st' ↔
     a ∈ allNews st
     ∧ (currentFilter st = "all" ∨ category a = currentFilter st)
     ∧ (∀ term, searchInput st = Some term → term ≠ "" →
          occurs_ignoring_case (title a) term
          ∨ occurs_ignoring_case (description a) term))
  ∧ displayedNews st' `sublist_of` allNews st
  ∧ getVisibleArticles st' `prefix_of` displayedNews st'.
Proof.
  cbn zeta. change (displayedNews (displayNews st)) with (filtered st).
  rewrite getVisibleArticles_displayNews. split; [|split].
  - unfold filtered, searchTerm_of.
    assert (a ∈ (if String.eqb (currentFilter st) "all" then allNews st
                 else filter (λ article, category article = currentFilter st) (allNews st))
            ↔ a ∈ allNews st ∧ (currentFilter st = "all" ∨ category a = currentFilter st))
      as Hcategory.
    { destruct (String.eqb_spec (currentFilter st) "all") as [Hall|Hnot].
      - tauto.
      - rewrite list_elem_of_filter. tauto. }
    destruct (searchInput st) as [term|]; cbn [fmap option_fmap option_map JS.or_else].
    + destruct (String.eqb_spec (JS.toLowerCase term) "") as [Hempty|Hterm].
      * apply toLowerCase_empty in Hempty as ->. cbn [JS.truthy String.eqb negb].
        rewrite Hcategory. split; [|tauto].
        intros [Hin Hcat]. repeat split; [done..|]. by intros ? [= <-] ?.
      * assert (term ≠ "") as Hne by (by intros ->).
        replace (JS.truthy (Some (JS.toLowerCase term))) with true
          by (cbn; by destruct (String.eqb_spec (JS.toLowerCase term) "")).
        rewrite list_elem_of_filter, Hcategory. unfold matches_search.
        rewrite orb_true_iff, !includes_ignoring_case. split.
        -- intros [Hmatch Hrest]. split; [apply Hrest|]. split; [apply Hrest|].
           by intros ? [= <-] _.
        -- intros (Hin & Hcat & Hsearch). split; [by apply Hsearch|done].
    + cbn [JS.truthy String.eqb negb]. rewrite Hcategory. split; [|tauto].
      intros [Hin Hcat]. by repeat split.
  - unfold filtered.
    destruct (JS.truthy _); destruct (String.eqb _ _);
      repeat (etrans; [apply sublist_filter; apply _|]); done.
  - apply prefix_take.
Qed.

(** X9: the load-more container is shown exactly when articles remain beyond
    the page, and hidden exactly when the grid shows all displayed articles;
    [loadMoreNews] keeps what the grid shows and adds articles at its end,
    and changes nothing in the grid when the container is hidden. *)
Theorem load_more_affordance st :
  let st' := displayNews st in
  (loadMoreContainer_hidden st' = false
   ↔ (currentPage st * NEWS_PER_PAGE < length (filtered st))%nat)
  ∧ (loadMoreContainer_hidden st' = true ↔ getVisibleArticles st' = filtered st)
  ∧ getVisibleArticles st' `prefix_of` getVisibleArticles (loadMoreNews st')
  ∧ (loadMoreContainer_hidden st' = true →
     getVisibleArticles (loadMoreNews st') = getVisibleArticles st').
Proof.
  cbn zeta.
  rewrite getVisibleArticles_loadMoreNews, getVisibleArticles_displayNews,
    filtered_displayNews, currentPage_displayNews.
  change (loadMoreContainer_hidden (displayNews st))
    with (negb (length (take (currentPage st * NEWS_PER_PAGE) (filtered st))
                <? length (filtered st))%nat).
  set (n := (currentPage st * NEWS_PER_PAGE)%nat).
  set (l := filtered st).
  assert (S (currentPage st) * NEWS_PER_PAGE = n + NEWS_PER_PAGE)%nat as -> by lia.
  rewrite length_take.
  destruct (Nat.ltb_spec (n `min` length l) (length l)) as [Hlt|Hge]; cbn [negb].
  - split; [split; [lia|done]|]. split; [|split; [|done]].
    + split; [done|]. intros Heq. apply (f_equal length) in Heq.
      rewrite length_take in Heq. lia.
    + rewrite <- take_take_drop. by eexists.
  - split; [split; [done|lia]|]. split; [|split].
    + split; [|done]. intros _. apply take_ge. lia.
    + rewrite <- take_take_drop. by eexists.
    + intros _. rewrite !take_ge; [done|lia..].
Qed.

(** X10: a click on a card opens the modal of the article at the card's place in
    the filtered collection, and leaves the grid as it is; closing hides the
    modal and keeps its content. Where the grid has no card, beyond the page
    or beyond the filtered collection, there is nothing to click. *)
Theorem card_click_opens_its_article st index :
  let st' := displayNews st in
  (∀ a, filtered st !! index = Some a →
        (index < currentPage st * NEWS_PER_PAGE)%nat →
        let opened := click_card index st' in
        opened = openArticleModal a st'
        ∧ modalTitle <$> articleModal opened = Some (title a)
        ∧ articleModal_shown opened = true
        ∧ newsGrid opened = newsGrid st'
        ∧ articleModal_shown (closeArticleModal opened) = false
        ∧ articleModal (closeArticleModal opened) = articleModal opened)
  ∧ ((currentPage st * NEWS_PER_PAGE ≤ index)%nat
     ∨ (length (filtered st) ≤ index)%nat →
     newsGrid st' !! index = None ∧ click_card index st' = st').
Proof.
  cbn zeta. unfold click_card. rewrite newsGrid_displayNews, list_lookup_fmap.
  split.
  - intros a Ha Hpage. rewrite lookup_take_lt, Ha by done.
    cbn [fmap option_fmap option_map card_article card_of]. by repeat split.
  - intros Hbeyond.
    assert (take (currentPage st * NEWS_PER_PAGE) (filtered st) !! index = None)
      as -> ; [|done].
    apply lookup_ge_None. rewrite length_take. lia.
Qed.

End View.

(* ------------------------------------------------------------------ *)
(** ** Properties of the normalization *)

Lemma or_else_default_nonempty o d : d ≠ "" → JS.or_else o d ≠ "".
Proof.
  intros Hd. destruct o as [s|]; cbn; [|done].
  by destruct (String.eqb_spec s "").
Qed.

Lemma string_length_app (a b : string) :
  String.length (a +:+ b) = (String.length a + String.length b)%nat.
Proof. induction a as [|c a IH]; [done|]. rewrite string_app_cons. cbn. by rewrite IH. Qed.

Lemma substring0_length n s : (String.length (JS.substring0 n s) ≤ n)%nat.
Proof.
  revert s. induction n as [|n IH]; intros [|c s]; cbn; try lia.
  specialize (IH s). lia.
Qed.

(** ** What [displayNews] leaves alone *)

Section Frame.
Context {browser : Browser}.

Lemma allNews_displayNews st : allNews (displayNews st) = allNews st.
Proof. reflexivity. Qed.

Lemma localStorage_displayNews st : localStorage (displayNews st) = localStorage st.
Proof. reflexivity. Qed.

(** The filtered collection depends on the collection, the filter and the
    search box only. *)
Lemma filtered_ext st st' :
  allNews st = allNews st' → currentFilter st = currentFilter st' →
  searchInput st = searchInput st' → filtered st = filtered st'.
Proof.
  intros Hnews Hfilter Hinput. unfold filtered, searchTerm_of.
  by rewrite Hnews, Hfilter, Hinput.
Qed.

End Frame.

Section Normalization.
Context {browser : Browser} {world : World}.

(** What every article built from a feed item has. *)
Definition well_formed (a : Article) : Prop :=
  title a ≠ "" ∧ link a ≠ "" ∧ image a ≠ ""
  ∧ description a ≠ ""
  ∧ (String.length (description a) ≤ DESCRIPTION_MAX_LENGTH + 3)%nat
  ∧ category a ∈ ["llm"; "ml"; "vision"; "ethics"].

Lemma article_of_well_formed item date : well_formed (article_of item date).
Proof.
  unfold well_formed. cbn [title link image description category article_of].
  split; [by apply or_else_default_nonempty|].
  split; [by apply or_else_default_nonempty|].
  split; [by do 2 apply or_else_default_nonempty|].
  split; [|split; [|apply categorizeArticle_range]].
  - destruct (item_description item) as [d|]; [|done].
    destruct (JS.truthy (Some d)); [|done].
    intros Hempty. apply (f_equal String.length) in Hempty.
    rewrite string_length_app in Hempty. cbn in Hempty. lia.
  - destruct (item_description item) as [d|]; [|cbn; lia].
    destruct (JS.truthy (Some d)); [|cbn; lia].
    rewrite string_length_app.
    pose proof (substring0_length DESCRIPTION_MAX_LENGTH (stripHTML d)).
    cbn [String.length]. lia.
Qed.

Lemma articles_from_well_formed items reads :
  Forall well_formed (articles_from items reads).
Proof.
  revert reads. induction items as [|item rest IH]; intros reads; cbn; [done|].
  constructor; [apply article_of_well_formed | apply IH].
Qed.

Lemma collected_well_formed results reads :
  Forall well_formed (collected results reads).
Proof.
  revert reads. induction results as [|r rest IH]; intros reads; cbn; [done|].
  destruct (is_null r); [done|].
  apply Forall_app. split; [apply articles_from_well_formed | apply IH].
Qed.

(** X11: after a run without a cache hit, whether it completes or throws, every
    article of [allNews] has a title, a link, an image and a description that
    are not empty, a description of at most [DESCRIPTION_MAX_LENGTH] and
    three code units, and one of the four categories. *)
Theorem collection_well_formed st :
  cached_articles st = None →
  Forall well_formed (allNews (state_of (fetchAINews st))).
Proof.
  intros Hmiss. rewrite fetchAINews_run, Hmiss. cbn [state_of]. unfold refreshed.
  pose proof (collected_well_formed (results_of RSS_FEEDS) (S (clock_reads st)))
    as Hgathered. fold (gathered st) in Hgathered.
  destruct (completes (results_of RSS_FEEDS)).
  - rewrite allNews_displayNews. cbn [allNews set_localStorage set_allNews].
    unfold final_news. rewrite Forall_forall in *. intros a Ha.
    apply Hgathered.
    apply elem_of_sort.
    exact (elem_of_sublist _ _ _ Ha (remove_duplicates_sublist ∅ (sort (gathered st)))).
  - done.
Qed.

(** X12: an item without an author whose link has no scheme, as the link [#] of
    an item without a link has none, gets the source [Unknown Source]. *)
Theorem source_without_scheme item date :
  JS.truthy (item_author item) = false →
  (URL.scheme_start_state
     (URL.remove_tab_newline (URL.trim (JS.or_else (item_link item) "#"))) = None →
   source (article_of item date) = "Unknown Source")
  ∧ (JS.truthy (item_link item) = false →
     link (article_of item date) = "#"
     ∧ source (article_of item date) = "Unknown Source").
Proof.
  intros Hauthor.
  assert (∀ x, JS.or_else (item_author item) x = x) as Hor.
  { intros x. destruct (item_author item) as [a|]; [|done]. cbn in *.
    by destruct (String.eqb a ""). }
  assert (∀ l, URL.scheme_start_state (URL.remove_tab_newline (URL.trim l)) = None →
               getHostname l = "Unknown Source") as Hhost.
  { intros l Hl. unfold getHostname, URL.new. by rewrite Hl. }
  split.
  - intros Hscheme. cbn [source article_of]. rewrite Hor. by apply Hhost.
  - intros Hlink.
    assert (JS.or_else (item_link item) "#" = "#") as Hhash.
    { destruct (item_link item) as [l|]; [|done]. cbn in *.
      by destruct (String.eqb l ""). }
    cbn [link source article_of]. rewrite Hor, Hhash. split; [done|].
    by apply Hhost.
Qed.

End Normalization.

(* ------------------------------------------------------------------ *)
(** ** What sanitizeURL lets through *)

Lemma startsWith_split' s k :
  (∃ post, s = k +:+ post) → JS.startsWith s k = true.
Proof.
  intros [post ->]. induction k as [|a k IH]; [done|].
  rewrite string_app_cons. cbn [JS.startsWith]. by rewrite Ascii.eqb_refl.
Qed.

Lemma scheme_state_lower s buffer rest :
  URL.scheme_state s = Some (buffer, rest) →
  JS.toLowerCase s = buffer +:+ ":" +:+ JS.toLowerCase rest.
Proof.
  revert buffer. induction s as [|c s IH]; intros buffer; cbn [URL.scheme_state]; [done|].
  destruct (N.eqb_spec (URL.code c) 58) as [Hcolon|_].
  - intros [= <- <-]. cbn [JS.toLowerCase]. unfold JS.lower_char.
    unfold URL.code in Hcolon. by rewrite Hcolon.
  - destruct (URL.is_scheme_char c); [|done].
    destruct (URL.scheme_state s) as [[b r]|]; [|done].
    intros [= <- <-]. cbn [JS.toLowerCase]. by rewrite (IH b eq_refl).
Qed.

Lemma scheme_start_state_lower s scheme rest :
  URL.scheme_start_state s = Some (scheme, rest) →
  JS.startsWith (JS.toLowerCase s) (scheme +:+ ":") = true.
Proof.
  destruct s as [|c s]; cbn [URL.scheme_start_state]; [done|].
  destruct (URL.is_alpha c); [|done].
  destruct (URL.scheme_state s) as [[b r]|] eqn:Hstate; [|done].
  intros [= <- <-]. apply startsWith_split'. exists (JS.toLowerCase r).
  cbn [JS.toLowerCase]. rewrite (scheme_state_lower _ _ _ Hstate).
  by rewrite !string_app_cons, string_app_assoc.
Qed.

Section Schemes.
Context {browser : Browser}.

(** X13: [sanitizeURL] returns the fallback, or it returns its input and the
    input, without its leading and trailing blanks and its tabs and line
    breaks, begins with [http:] or [https:] in any letter case. A URL with
    another scheme, or a relative one, never comes through. *)
Theorem sanitizeURL_only_http url :
  sanitizeURL url = FALLBACK_URL
  ∨ (sanitizeURL url = url
     ∧ (JS.startsWith (JS.toLowerCase (URL.remove_tab_newline (URL.trim url))) "http:" = true
        ∨ JS.startsWith (JS.toLowerCase (URL.remove_tab_newline (URL.trim url))) "https:" = true)).
Proof.
  destruct (is_http_url_dec url) as [Hhttp|Hother];
    [right | left; by apply sanitizeURL_other].
  split; [by apply sanitizeURL_http|].
  destruct (is_http_url_scheme url Hhttp) as (scheme & rest & Hstate & [-> | ->]);
    [left | right]; exact (scheme_start_state_lower _ _ _ Hstate).
Qed.

End Schemes.

(* ------------------------------------------------------------------ *)
(** ** Properties of the cache *)

Section CacheProperties.
Context {browser : Browser} {world : World}.




(** The state a run without a cache hit that completes ends in has a fresh
    entry for the next reading of the clock within the cache duration, when
    the browser parses back what it has stringified. *)
Lemma completed_run_leaves_fresh_entry st :
  cached_articles st = None → ¬ answers_null RSS_FEEDS →
  JSON_stringify (final_news st) ≠ "" →
  JSON_parse (JSON_stringify (final_news st)) = JSON_articles (final_news st) →
  now_of (state_of (fetchAINews st)) - now_of st < CACHE_DURATION_MS →
  state_of (fetchAINews st)
  = displayNews
      (set_localStorage
         (<["aiNewsCacheTime" := JS.toString (now_of st)]>
            (<["aiNewsCache" := JSON_stringify (final_news st)]> (localStorage st)))
         (set_allNews (final_news st) (gathered_state st)))
  ∧ cached_articles (state_of (fetchAINews st)) = Some (final_news st).
Proof.
  intros Hmiss Hnonull Hne Hback Hage.
  rewrite fetchAINews_run, Hmiss in *. cbn [state_of] in *. unfold refreshed in *.
  apply completes_results_of in Hnonull. rewrite Hnonull in *.
  split; [done|].
  apply (cached_articles_hit _ (JSON_stringify (final_news st))
           (JS.toString (now_of st)) (now_of st)); try done.
  - rewrite localStorage_displayNews.
    cbn [localStorage set_localStorage].
    rewrite lookup_insert_ne by done. apply lookup_insert_eq.
  - rewrite localStorage_displayNews.
    cbn [localStorage set_localStorage]. apply lookup_insert_eq.
  - apply parseInt_toString.
Qed.

(** X15: after a run without a cache hit that completes, the next run within
    the cache duration sends no request and leaves the storage, the
    collection and what the grid shows as they are, provided the browser
    parses back the collection it has stringified. *)
Theorem next_run_uses_cache st :
  cached_articles st = None → ¬ answers_null RSS_FEEDS →
  JSON_stringify (final_news st) ≠ "" →
  JSON_parse (JSON_stringify (final_news st)) = JSON_articles (final_news st) →
  let st1 := state_of (fetchAINews st) in
  now_of st1 - now_of st < CACHE_DURATION_MS →
  let st2 := state_of (fetchAINews st1) in
  requests st2 = requests st1
  ∧ localStorage st2 = localStorage st1
  ∧ allNews st2 = allNews st1
  ∧ getVisibleArticles st2 = getVisibleArticles st1.
Proof.
  intros Hmiss Hnonull Hne Hback st1 Hage st2.
  destruct (completed_run_leaves_fresh_entry st Hmiss Hnonull Hne Hback Hage)
    as [Hst1 Hhit].
  subst st2. rewrite (fetchAINews_run st1). fold st1 in Hhit. rewrite Hhit.
  cbn [state_of]. fold st1 in Hst1. clearbody st1.
  assert (allNews st1 = final_news st) as Hnews by (by rewrite Hst1).
  assert (getVisibleArticles st1
          = take (currentPage st1 * NEWS_PER_PAGE) (filtered st1)) as Hvisible.
  { rewrite Hst1.
    by rewrite getVisibleArticles_displayNews, currentPage_displayNews,
      filtered_displayNews. }
  split; [reflexivity|]. split; [reflexivity|].
  split; [by rewrite allNews_displayNews|].
  rewrite getVisibleArticles_displayNews, Hvisible.
  f_equal. by apply filtered_ext.
Qed.

(** X16: after a run in which no feed yielded items, a retry within the cache
    duration sends no request: it shows the stored empty collection, the
    grid without a card and the error state hidden. *)
Theorem retry_after_total_failure st :
  cached_articles st = None →
  (∀ feed, feed ∈ RSS_FEEDS → ¬ yields_items (response (request_url feed))) →
  ¬ answers_null RSS_FEEDS →
  JSON_stringify [] ≠ "" →
  JSON_parse (JSON_stringify []) = JSON_articles [] →
  let st1 := state_of (fetchAINews st) in
  now_of st1 - now_of st < CACHE_DURATION_MS →
  let st2 := state_of (fetchAINews st1) in
  requests st2 = requests st1
  ∧ allNews st2 = [] ∧ newsGrid st2 = []
  ∧ newsGrid_hidden st2 = false ∧ errorState_hidden st2 = true.
Proof.
  intros Hmiss Hnone Hnonull Hne Hback st1 Hage st2.
  pose proof (final_news_none st Hnone) as Hempty.
  rewrite <- Hempty in Hne, Hback.
  destruct (completed_run_leaves_fresh_entry st Hmiss Hnonull Hne Hback Hage)
    as [_ Hhit].
  subst st2. rewrite (fetchAINews_run st1). fold st1 in Hhit.
  rewrite Hhit, Hempty. cbn [state_of].
  split; [reflexivity|]. split; [reflexivity|].
  rewrite newsGrid_displayNews, filtered_empty by done.
  by rewrite take_nil.
Qed.

(** X17: after a run that throws, [allNews] holds the articles pushed before
    the [null] answer, neither sorted nor freed of duplicates; the storage is
    as before and the error state is shown. A filter click then shows the
    grid while the error state stays shown, and with the filter [all] and no
    search term the grid shows the first articles of that collection. *)
Theorem failed_run_leaves_partial_collection st :
  cached_articles st = None → answers_null RSS_FEEDS →
  let st1 := state_of (fetchAINews st) in
  allNews st1 = gathered st
  ∧ localStorage st1 = localStorage st
  ∧ errorState_hidden st1 = false ∧ newsGrid_hidden st1 = true
  ∧ (∀ category,
       errorState_hidden (filterNews category st1) = false
       ∧ newsGrid_hidden (filterNews category st1) = false)
  ∧ (searchTerm_of st = "" →
     getVisibleArticles (filterNews "all" st1) = take NEWS_PER_PAGE (gathered st)).
Proof.
  intros Hmiss Hnull. cbn zeta. rewrite fetchAINews_run, Hmiss. cbn [state_of].
  unfold refreshed. rewrite (completes_false _ Hnull).
  repeat split.
  intros Hterm. unfold filterNews. rewrite getVisibleArticles_displayNews.
  unfold filtered, searchTerm_of in *. cbn. rewrite Hterm. reflexivity.
Qed.

(** X18: the time that a completed run stores is the time that the next run
    reads: [parseInt] of the stored text is the number that was written. *)
Theorem stored_time_read_back st :
  cached_articles st = None → ¬ answers_null RSS_FEEDS →
  localStorage (state_of (fetchAINews st)) !! "aiNewsCacheTime" ≫= JS.parseInt
  = Some (now_of st).
Proof.
  intros Hmiss Hnonull. rewrite fetchAINews_run, Hmiss. cbn [state_of].
  unfold refreshed. apply completes_results_of in Hnonull. rewrite Hnonull.
  rewrite localStorage_displayNews.
  cbn [localStorage set_localStorage]. rewrite lookup_insert_eq.
  apply parseInt_toString.
Qed.

End CacheProperties.

(* ------------------------------------------------------------------ *)
(** ** Articles of one date *)

Lemma filter_sublist {A} (P : A → Prop) `{!∀ x, Decision (P x)} (l k : list A) :
  l `sublist_of` k → filter P l `sublist_of` filter P k.
Proof.
  induction 1 as [|x l k _ IH|x l k _ IH]; [done|..]; rewrite ?filter_cons;
    destruct (decide (P x)); try done; by constructor.
Qed.

Section Ties.
Context {browser : Browser} {world : World}.

(** X19: the articles of one time value are in the final collection in the
    order in which they were collected, that of the feeds and within a feed
    that of its items: the sort does not reorder them and the removal of
    duplicates only drops some. The dates are taken as all valid, where the
    result of the sort does not depend on the engine. *)
Theorem same_date_keeps_feed_order st t :
  cached_articles st = None → ¬ answers_null RSS_FEEDS →
  Forall dated (gathered st) →
  filter (λ x, time_of x = Some t) (allNews (state_of (fetchAINews st)))
  `sublist_of` filter (λ x, time_of x = Some t) (gathered st).
Proof.
  intros Hmiss Hnonull _. rewrite (allNews_after_run st Hmiss Hnonull).
  rewrite <- (sort_stable (Some t) (gathered st)).
  apply filter_sublist, remove_duplicates_sublist.
Qed.

End Ties.

(* ------------------------------------------------------------------ *)
(** ** The request of a feed *)

Lemma includes_char_cons (c a : ascii) (s : string) :
  JS.includes (String a s) (String c "")
  = Ascii.eqb c a || JS.includes s (String c "").
Proof. cbn [JS.includes JS.startsWith]. by destruct (Ascii.eqb c a). Qed.

Lemma includes_char_app (c : ascii) (s t : string) :
  JS.includes (s +:+ t) (String c "")
  = JS.includes s (String c "") || JS.includes t (String c "").
Proof.
  induction s as [|a s IH].
  - rewrite string_app_nil_l. cbn. by destruct t.
  - by rewrite string_app_cons, !includes_char_cons, IH, orb_assoc.
Qed.

Lemma encoded_char_plain (c : ascii) :
  let encoded :=
    if URL.is_unreserved c then String c ""
    else if (URL.code c <? 128)%N then URL.percent (URL.code c)
    else URL.percent (192 + URL.code c / 64) +:+ URL.percent (128 + URL.code c mod 64) in
  forallb (λ d, negb (JS.includes encoded (String d "")))
    ["&"; "="; "#"; "?"; "/"; ":"; " "]%char = true.
Proof. destruct c as [[] [] [] [] [] [] [] []]; reflexivity. Qed.

(** X20: the feed URL enters the request as one query parameter: the request is
    the address of the conversion service followed by the encoded feed URL,
    in which no ampersand, equals sign, hash, question mark, slash, colon or
    space is left. *)
Theorem request_url_one_parameter feed :
  request_url feed = RSS2JSON_API +:+ URL.encodeURIComponent feed
  ∧ Forall (λ d, JS.includes (URL.encodeURIComponent feed) (String d "") = false)
      ["&"; "="; "#"; "?"; "/"; ":"; " "]%char.
Proof.
  split; [done|].
  induction feed as [|c feed IH]; [by repeat constructor|].
  cbn [URL.encodeURIComponent].
  pose proof (encoded_char_plain c) as Hc. cbn zeta in Hc.
  rewrite forallb_forall in Hc. rewrite Forall_forall in *.
  intros d Hd. rewrite includes_char_app, (IH d Hd), orb_false_r.
  apply negb_true_iff, Hc. by apply list_elem_of_In.
Qed.


(* ================================================================== *)
(** * Concrete runs of the remaining functions *)
(* ================================================================== *)

(** Dates as the locale [en-US] writes them, in the time zone UTC. *)
Definition MONTHS : list string :=
  ["Jan"; "Feb"; "Mar"; "Apr"; "May"; "Jun"; "Jul"; "Aug"; "Sep"; "Oct"; "Nov"; "Dec"].

Definition utc_locale : Locale :=
  {| toLocaleDateString := λ date,
       match date with
       | Some t =>
           let '(y, m, d) := Engine.civil_from_days (t / Engine.MS_PER_DAY) in
           default "" (MONTHS !! Z.to_nat (m - 1))
           +:+ " " +:+ JS.toString d +:+ ", " +:+ JS.toString y
       | None => "Invalid Date"
       end |}.

(** The first feed answers with the given items, the second with [null]. *)
Definition null_after_first (items : list RawItem) : World :=
  {| clock := λ _, NOW;
     response := λ url,
       if String.eqb url
            (request_url "https://techcrunch.com/tag/artificial-intelligence/feed/")
       then Body "ok" (Some items)
       else if String.eqb url (request_url "https://venturebeat.com/category/ai/feed/")
       then NullBody
       else Rejected |}.

Lemma null_after_first_null items :
  answers_null (world := null_after_first items) RSS_FEEDS.
Proof.
  exists "https://venturebeat.com/category/ai/feed/".
  split; [|reflexivity]. apply list_elem_of_further, list_elem_of_here.
Defined.

Definition camera_article : Article :=
  {| title := "New CAMERA sensor"; description := "Sharper pictures...";
     link := "https://example.com/camera"; pubDate := "2023-11-14T22:13:20.000Z";
     source := "example.com"; image := FALLBACK_URL; category := "vision" |}.

(** The filter at [vision], the search box at [Camera]. *)
Definition vision_camera : State :=
  set_searchInput (Some "Camera")
    (set_currentFilter "vision"
       (set_allNews [sample_article; camera_article] (initial ∅ None))).

Definition formatted (dateString : string) : Outcome string :=
  formatDate (browser := Engine.browser) (world := offline) (locale := utc_locale)
    dateString first_visit.

Example formatDate_examples :
  let later := set_clock_reads 1 first_visit in
  formatted "2023-11-14T00:00:00.000Z" = Returned "Today" later
  ∧ formatted "2023-11-13T23:00:00.000Z" = Returned "Today" later
  ∧ formatted "2023-11-13T00:00:00.000Z" = Returned "Yesterday" later
  ∧ formatted "2023-11-10T00:00:00.000Z" = Returned "4 days ago" later
  ∧ formatted "2023-11-07T00:00:00.000Z" = Returned "Nov 7, 2023" later
  ∧ formatted "2023-11-15T00:00:00.000Z" = Returned "-1 days ago" later
  ∧ formatted "garbage" = Returned "Invalid Date" later.
Proof. repeat split. Qed.

Lemma formatDate_labels_witness :
  let later := set_clock_reads 1 first_visit in
  formatted "2023-11-14T00:00:00.000Z" = Returned "Today" later
  ∧ formatted "2023-11-13T00:00:00.000Z" = Returned "Yesterday" later
  ∧ formatted "2023-11-10T00:00:00.000Z" = Returned "4 days ago" later
  ∧ formatted "2023-11-07T00:00:00.000Z" = Returned "Nov 7, 2023" later
  ∧ formatted "garbage" = Returned "Invalid Date" later.
Proof.
  cbn zeta. unfold formatted.
  refine (conj _ (conj _ (conj _ (conj _ _)))).
  - destruct (formatDate_labels (browser := Engine.browser) (world := offline)
                (locale := utc_locale) "2023-11-14T00:00:00.000Z" first_visit)
      as (label & -> & Hvalid & _).
    f_equal. apply (Hvalid 1699920000000); [vm_compute; reflexivity | compute_done].
  - destruct (formatDate_labels (browser := Engine.browser) (world := offline)
                (locale := utc_locale) "2023-11-13T00:00:00.000Z" first_visit)
      as (label & -> & Hvalid & _).
    f_equal. apply (Hvalid 1699833600000); [vm_compute; reflexivity | compute_done].
  - destruct (formatDate_labels (browser := Engine.browser) (world := offline)
                (locale := utc_locale) "2023-11-10T00:00:00.000Z" first_visit)
      as (label & -> & Hvalid & _).
    f_equal.
    destruct (Hvalid 1699574400000) as (_ & _ & Hdays & _); [vm_compute; reflexivity|].
    destruct Hdays as [_ ->]; [compute_done | reflexivity].
  - destruct (formatDate_labels (browser := Engine.browser) (world := offline)
                (locale := utc_locale) "2023-11-07T00:00:00.000Z" first_visit)
      as (label & -> & Hvalid & _).
    f_equal.
    destruct (Hvalid 1699315200000) as (_ & _ & _ & Hlocale); [vm_compute; reflexivity|].
    rewrite Hlocale; [reflexivity | compute_done].
  - destruct (formatDate_labels (browser := Engine.browser) (world := offline)
                (locale := utc_locale) "garbage" first_visit)
      as (label & -> & _ & Hinvalid).
    f_equal. by rewrite Hinvalid.
Defined.

Lemma formatDate_future_witness :
  ∃ digits,
    formatted "2999-01-01T00:00:00.000Z"
    = Returned (String "-" digits +:+ " days ago") (set_clock_reads 1 first_visit)
    ∧ JS.toString (days_between NOW 32472144000000) = String "-" digits
    ∧ days_between NOW 32472144000000 ≤ -1.
Proof.
  apply (formatDate_future (browser := Engine.browser) (world := offline)
           (locale := utc_locale) "2999-01-01T00:00:00.000Z" 32472144000000
           first_visit); [vm_compute; reflexivity | compute_done].
Defined.

Lemma undated_item_shown_as_today_witness :
  formatDate (browser := Engine.browser) (world := offline) (locale := utc_locale)
    (pubDate (article_of (browser := Engine.browser) (item_dated "Just in" None)
                (date_of (browser := Engine.browser) (world := offline)
                   (item_dated "Just in" None) 1)))
    first_visit
  = Returned "Today" (set_clock_reads 1 first_visit).
Proof.
  apply (undated_item_shown_as_today (browser := Engine.browser) (world := offline)
           (locale := utc_locale));
    [reflexivity | vm_compute; reflexivity | compute_done].
Defined.

(** An item whose description has no ellipsis of its own. *)
Definition plain_item : RawItem :=
  {| item_title := Some "Plain"; item_description := Some "<b>Hello</b> world";
     item_link := None; item_pubDate := None; item_author := None;
     item_thumbnail := None; item_enclosure_link := None |}.

(** An item with nothing but a title. *)
Definition bare_item : RawItem :=
  {| item_title := Some "Bare"; item_description := None;
     item_link := None; item_pubDate := None; item_author := None;
     item_thumbnail := None; item_enclosure_link := None |}.

Lemma modal_preview_text_witness :
  let text_of item :=
    modalContentText_of (article_of (browser := Engine.browser) item "") in
  text_of bare_item
  = "No description available This is a preview from Unknown Source. Click below to read the full article on their website."
  ∧ text_of plain_item
    = "Hello world This is a preview from Unknown Source. Click below to read the full article on their website."
  ∧ text_of scripted_item
    = "OpenAI ships... This is a preview from . Click below to read the full article on their website.".
Proof.
  cbn zeta. refine (conj _ (conj _ _)).
  - destruct (modal_preview_text (browser := Engine.browser) bare_item "")
      as [Hnotice _].
    rewrite Hnotice; reflexivity.
  - destruct (modal_preview_text (browser := Engine.browser) plain_item "")
      as [_ Htext].
    destruct (Htext "<b>Hello</b> world" eq_refl) as [Hplain _]; [discriminate|].
    rewrite Hplain; reflexivity.
  - destruct (modal_preview_text (browser := Engine.browser) scripted_item "")
      as [_ Htext].
    destruct (Htext "<p>OpenAI ships...</p>" eq_refl) as [_ Hown]; [discriminate|].
    rewrite Hown; reflexivity.
Defined.

Lemma displayed_articles_witness :
  camera_article ∈ displayedNews (displayNews (browser := Engine.browser) vision_camera)
  ∧ sample_article ∉ displayedNews (displayNews (browser := Engine.browser) vision_camera).
Proof.
  split.
  - destruct (displayed_articles (browser := Engine.browser) vision_camera
                camera_article) as [[_ Hin] _].
    apply Hin. split; [apply list_elem_of_further, list_elem_of_here|].
    split; [by right|].
    intros term [= <-] _. left.
    exists "New ", "CAMERA", " sensor". by split.
  - destruct (displayed_articles (browser := Engine.browser) vision_camera
                sample_article) as [[Hout _] _].
    intros Hin. destruct (Hout Hin) as (_ & [Hall|Hcategory] & _); discriminate.
Defined.

Lemma load_more_affordance_witness :
  let page1 := displayNews (browser := Engine.browser) twenty_five in
  let page3 := displayNews (browser := Engine.browser) (set_currentPage 3 twenty_five) in
  loadMoreContainer_hidden page1 = false
  ∧ getVisibleArticles page1
    `prefix_of` getVisibleArticles (loadMoreNews (browser := Engine.browser) page1)
  ∧ loadMoreContainer_hidden page3 = true
  ∧ getVisibleArticles (loadMoreNews (browser := Engine.browser) page3)
    = getVisibleArticles page3.
Proof.
  cbn zeta.
  destruct (load_more_affordance (browser := Engine.browser) twenty_five)
    as ([_ Hshown] & _ & Hprefix & _).
  destruct (load_more_affordance (browser := Engine.browser)
              (set_currentPage 3 twenty_five)) as (_ & [_ Hhidden] & _ & Hsame).
  refine (conj _ (conj Hprefix _)).
  - apply Hshown. compute_done.
  - assert (loadMoreContainer_hidden
              (displayNews (browser := Engine.browser) (set_currentPage 3 twenty_five))
            = true) as Hall by (apply Hhidden; reflexivity).
    split; [exact Hall | exact (Hsame Hall)].
Defined.

Lemma collection_well_formed_witness :
  Forall well_formed
    (allNews (state_of (fetchAINews (browser := Engine.browser)
                          (world := one_feed older_then_newer) first_visit)))
  ∧ Forall well_formed
      (allNews (state_of (fetchAINews (browser := Engine.browser)
                            (world := null_after_first older_then_newer) first_visit))).
Proof.
  split.
  - apply (collection_well_formed (browser := Engine.browser)
             (world := one_feed older_then_newer) first_visit). reflexivity.
  - apply (collection_well_formed (browser := Engine.browser)
             (world := null_after_first older_then_newer) first_visit). reflexivity.
Defined.

Lemma source_without_scheme_witness :
  source (article_of (browser := Engine.browser) bare_item "") = "Unknown Source"
  ∧ link (article_of (browser := Engine.browser) bare_item "") = "#"
  ∧ source (article_of (browser := Engine.browser)
              {| item_title := None; item_description := None;
                 item_link := Some "/relative/path"; item_pubDate := None;
                 item_author := Some ""; item_thumbnail := None;
                 item_enclosure_link := None |} "")
    = "Unknown Source".
Proof.
  refine (conj _ (conj _ _)).
  - destruct (source_without_scheme (browser := Engine.browser) bare_item "" eq_refl)
      as [_ Hnone].
    by apply Hnone.
  - destruct (source_without_scheme (browser := Engine.browser) bare_item "" eq_refl)
      as [_ Hnone].
    by apply Hnone.
  - match goal with |- source (article_of ?item _) = _ =>
      destruct (source_without_scheme (browser := Engine.browser) item "" eq_refl)
        as [Hscheme _]
    end.
    by apply Hscheme.
Defined.




Lemma next_run_uses_cache_witness :
  let st1 := state_of (fetchAINews (browser := Engine.browser)
                         (world := one_feed older_then_newer) first_visit) in
  let st2 := state_of (fetchAINews (browser := Engine.browser)
                         (world := one_feed older_then_newer) st1) in
  requests st2 = requests st1
  ∧ localStorage st2 = localStorage st1
  ∧ allNews st2 = allNews st1
  ∧ getVisibleArticles st2 = getVisibleArticles st1.
Proof.
  apply (next_run_uses_cache (browser := Engine.browser)
           (world := one_feed older_then_newer) first_visit).
  - reflexivity.
  - apply one_feed_no_null.
  - intros Hempty. vm_compute in Hempty. discriminate Hempty.
  - vm_compute. reflexivity.
  - compute_done.
Defined.

Lemma retry_after_total_failure_witness :
  let st1 := state_of (fetchAINews (browser := Engine.browser) (world := offline)
                         first_visit) in
  let st2 := state_of (fetchAINews (browser := Engine.browser) (world := offline)
                         st1) in
  requests st2 = requests st1
  ∧ allNews st2 = [] ∧ newsGrid st2 = []
  ∧ newsGrid_hidden st2 = false ∧ errorState_hidden st2 = true.
Proof.
  apply (retry_after_total_failure (browser := Engine.browser) (world := offline)
           first_visit).
  - reflexivity.
  - intros feed _. apply offline_no_items.
  - apply offline_no_null.
  - discriminate.
  - reflexivity.
  - compute_done.
Defined.

Lemma failed_run_leaves_partial_collection_witness :
  let st1 := state_of (fetchAINews (browser := Engine.browser)
                         (world := null_after_first older_then_newer) first_visit) in
  (λ a, (title a, pubDate a)) <$> allNews st1
  = [ ("Same title", "2023-11-01T00:00:00.000Z");
      ("Same title", "2023-11-10T00:00:00.000Z");
      ("Just in", "2023-11-14T22:13:20.000Z") ]
  ∧ localStorage st1 = localStorage first_visit
  ∧ errorState_hidden st1 = false
  ∧ errorState_hidden (filterNews (browser := Engine.browser) "all" st1) = false
  ∧ newsGrid_hidden (filterNews (browser := Engine.browser) "all" st1) = false
  ∧ length (getVisibleArticles (filterNews (browser := Engine.browser) "all" st1))
    = 3%nat.
Proof.
  cbn zeta.
  destruct (failed_run_leaves_partial_collection (browser := Engine.browser)
              (world := null_after_first older_then_newer) first_visit eq_refl
              (null_after_first_null _))
    as (Hnews & Hstore & Herror & _ & Hclick & Hgrid).
  rewrite Hnews, Hstore, Herror, (Hgrid eq_refl).
  destruct (Hclick "all") as [-> ->].
  repeat split; vm_compute; reflexivity.
Defined.

Lemma stored_time_read_back_witness :
  localStorage (state_of (fetchAINews (browser := Engine.browser) (world := offline)
                            first_visit)) !! "aiNewsCacheTime" ≫= JS.parseInt
  = Some NOW.
Proof.
  apply (stored_time_read_back (browser := Engine.browser) (world := offline)
           first_visit); [reflexivity | apply offline_no_null].
Defined.

Lemma card_click_opens_its_article_witness :
  let st' := displayNews (browser := Engine.browser) vision_camera in
  modalTitle <$> articleModal (click_card (browser := Engine.browser) 0 st')
  = Some "New CAMERA sensor"
  ∧ articleModal_shown (click_card (browser := Engine.browser) 0 st') = true
  ∧ click_card (browser := Engine.browser) 1 st' = st'.
Proof.
  cbn zeta.
  destruct (card_click_opens_its_article (browser := Engine.browser) vision_camera 0)
    as [Hopen _].
  destruct (Hopen camera_article) as (_ & Htitle & Hshown & _);
    [vm_compute; reflexivity | compute_done |].
  destruct (card_click_opens_its_article (browser := Engine.browser) vision_camera 1)
    as [_ Hnone].
  destruct Hnone as [_ Hsame]; [right; compute_done|].
  exact (conj Htitle (conj Hshown Hsame)).
Defined.

(** Two items of one date around an older one with the title of the first. *)
Definition same_day : list RawItem :=
  [ item_dated "Morning" (Some "2023-11-10T00:00:00.000Z");
    item_dated "Morning" (Some "2023-11-01T00:00:00.000Z");
    item_dated "Evening" (Some "2023-11-10T00:00:00.000Z") ].

Lemma same_date_keeps_feed_order_witness :
  filter (λ x, time_of (browser := Engine.browser) x = Some 1699574400000)
    (allNews (state_of (fetchAINews (browser := Engine.browser)
                          (world := one_feed same_day) first_visit)))
  `sublist_of`
  filter (λ x, time_of (browser := Engine.browser) x = Some 1699574400000)
    (gathered (browser := Engine.browser) (world := one_feed same_day) first_visit).
Proof.
  apply (same_date_keeps_feed_order (browser := Engine.browser)
           (world := one_feed same_day) first_visit 1699574400000);
    [reflexivity | apply one_feed_no_null | compute_done].
Defined.

Example same_day_order :
  title <$> allNews (state_of (fetchAINews (browser := Engine.browser)
                                 (world := one_feed same_day) first_visit))
  = ["Morning"; "Evening"].
Proof. vm_compute. reflexivity. Qed.
